(** * update_youtube: the format resolver and download orchestrator of
    [youtube_down.py]

    A shallow embedding of the three classes of [youtube_down.py]
    ([VideoInfoThread], [DownloadThread], [YouTubeDownloader]) and the
    properties of their format classification, ranking, labelling, option
    building, progress relay and session handling.

    Conventions of the embedding.
    - Python [str] is [string]; texts are taken to be ASCII.
    - Python [int] is [Z]; a [float] is the rational it denotes, in [Qc].
    - A yt-dlp format dict is the record [RawFormat]: yt-dlp documents
      [format_id] and [ext] as strings, [height], [fps] and [filesize] as
      integers and [abr] as a float, every one but [format_id] optional;
      the [duration] of the info dict is an integer or a float.
      [None] in a field stands for the key being absent or bound to Python's
      [None] ([dict.get] answers the same for both wherever the code reads
      the field; for [ext] it stands for the key being absent).
    - A dict built key by key ([ydl_opts]) is a [gmap string pyval].
    - Qt signals emitted by a thread are the values returned by its [run];
      dialogs shown by a slot are returned next to the new window state. *)

From stdpp Require Import base tactics option list strings pretty numbers gmap.
From Stdlib Require Import Ascii ZArith QArith Qround Qcanon Sorted Permutation.

Local Open Scope string_scope.
Local Open Scope list_scope.
Local Open Scope Z_scope.

(** ** Python built-ins used by the program *)

Module Py.

(** Truth value of an optional [int] ([None] and [0] are false). *)
Definition truthy_int (o : option Z) : bool :=
  match o with
  | Some z => negb (z =? 0)
  | None => false
  end.

(** Truth value of an optional [float]. *)
Definition truthy_float (o : option Qc) : bool :=
  match o with
  | Some q => negb (Qnum (this q) =? 0)
  | None => false
  end.

(** A Python number: an [int], or a [float] given by the rational it
    denotes. *)
Inductive number :=
| Int (z : Z)
| Float (q : Qc).

(** Truth value of an optional number ([None], [0] and [0.0] are false). *)
Definition truthy_number (o : option number) : bool :=
  match o with
  | Some (Int z) => negb (z =? 0)
  | Some (Float q) => negb (Qnum (this q) =? 0)
  | None => false
  end.

(** What evaluating an expression gives: a value, or an exception [e]
    with [str(e) = exc]. *)
Inductive outcome (A : Type) :=
| Value (a : A)
| Raise (exc : string).
Global Arguments Value {A} _.
Global Arguments Raise {A} _.

(** [int(x)] on a float: truncation toward zero. *)
Definition int_of_float (q : Qc) : Z :=
  Z.quot (Qnum (this q)) (Z.pos (Qden (this q))).

(** [str(n)] / [f"{n}"] on an int. *)
Definition str_int (n : Z) : string := pretty n.

(** [f"{n:02d}"]: sign-aware zero padding to width two. *)
Definition format_02d (n : Z) : string :=
  if (0 <=? n) && (n <? 10) then "0" +:+ pretty n else pretty n.

(** [x < y] on floats, as a boolean. *)
Definition float_ltb (x y : Qc) : bool := bool_decide (x < y)%Qc.

(** [str.isspace] on one ASCII character. *)
Definition isspace (c : ascii) : bool :=
  let n := N_of_ascii c in
  ((9 <=? n) && (n <=? 13) || (28 <=? n) && (n <=? 32))%N.

Fixpoint lstrip (s : string) : string :=
  match s with
  | String c s' => if isspace c then lstrip s' else s
  | EmptyString => EmptyString
  end.

Fixpoint rstrip (s : string) : string :=
  match s with
  | String c s' =>
      match rstrip s' with
      | EmptyString => if isspace c then EmptyString else String c EmptyString
      | r => String c r
      end
  | EmptyString => EmptyString
  end.

(** [s.strip()] *)
Definition strip (s : string) : string := rstrip (lstrip s).

(** [s.startswith(p)], answering the rest of [s] after [p]. *)
Fixpoint strip_prefix (p s : string) : option string :=
  match p, s with
  | EmptyString, _ => Some s
  | String a p', String b s' =>
      if Ascii.eqb a b then strip_prefix p' s' else None
  | String _ _, EmptyString => None
  end.

(** [s.endswith("/")] *)
Fixpoint ends_with_slash (s : string) : bool :=
  match s with
  | EmptyString => false
  | String c EmptyString => Ascii.eqb c "/"%char
  | String _ s' => ends_with_slash s'
  end.

(** ["/" in s] *)
Fixpoint has_slash (s : string) : bool :=
  match s with
  | EmptyString => false
  | String c s' => Ascii.eqb c "/"%char || has_slash s'
  end.

(** [os.path.basename] (posixpath): [p[p.rfind("/") + 1:]], the text
    after the last ["/"]. *)
Fixpoint basename (p : string) : string :=
  match p with
  | EmptyString => EmptyString
  | String c p' =>
      if Ascii.eqb c "/"%char || has_slash p' then basename p' else p
  end.

(** [os.path.join(a, b)] (posixpath) on two components. *)
Definition path_join (a b : string) : string :=
  match strip_prefix "/" b with
  | Some _ => b
  | None =>
      match a with
      | EmptyString => b
      | _ => if ends_with_slash a then a +:+ b else a +:+ "/" +:+ b
      end
  end.

(** [list.sort(key=key, reverse=True)]: the sort is stable, also when
    reversed, so the result is the stable descending arrangement, which
    insertion from the right computes. [lt] is [<] on the keys. *)
Section sort.
Context {A K : Type} (key : A → K) (lt : K → K → bool).

Fixpoint insert_desc (x : A) (l : list A) : list A :=
  match l with
  | [] => [x]
  | y :: l' =>
      if lt (key x) (key y) then y :: insert_desc x l' else x :: y :: l'
  end.

Definition sort_reverse (l : list A) : list A := foldr insert_desc [] l.

(** [x] may stand before [y] in a descending list: its key is not
    less. *)
Definition not_below (x y : A) : Prop := lt (key x) (key y) = false.

(** [y] has the sort key [k]: neither is less than the other. *)
Definition same_key (k : K) (y : A) : Prop :=
  lt (key y) k = false ∧ lt k (key y) = false.

Global Instance same_key_dec k y : Decision (same_key k y).
Proof. unfold same_key. apply _. Defined.
End sort.

End Py.

(** ** The collaborator's data *)

(** One entry of [info['formats']]. *)
Record RawFormat := {
  format_id : string;
  vcodec : option string;
  acodec : option string;
  height : option Z;
  fps : option Z;
  ext : option string;
  filesize : option Z;
  abr : option Qc;
}.

(** The dict returned by [extract_info]. *)
Record RawInfo := {
  info_title : option string;
  info_duration : option Py.number;
  info_formats : option (list RawFormat);
}.

Global Instance RawFormat_eq_dec : EqDecision RawFormat.
Proof. solve_decision. Defined.

(** An element of [video_formats] / [audio_formats]:
    [(quality_str, fmt['format_id'], fmt)]. *)
Definition entry : Type := string * string * RawFormat.

Definition entry_label (e : entry) : string := e.1.1.
Definition entry_id (e : entry) : string := e.1.2.
Definition entry_fmt (e : entry) : RawFormat := e.2.

(** ** class VideoInfoThread *)

Module VideoInfoThread.

(** The dict emitted through [finished]. *)
Record result := {
  title : string;
  duration : string;
  video_formats : list entry;
  audio_formats : list entry;
}.

Inductive signal :=
| finished (r : result)
| error (msg : string).

(** What [ydl.extract_info(url, download=False)] did: raised an exception
    [e] (with [str(e) = msg]) or returned [None] or a dict. *)
Inductive extract_outcome :=
| Raised (msg : string)
| Returned (info : option RawInfo).

(** [fmt.get(k) != 'none'] *)
Definition not_none (c : option string) : bool :=
  negb (bool_decide (c = Some "none")).

(** [fmt.get(k) == 'none'] *)
Definition is_none (c : option string) : bool :=
  bool_decide (c = Some "none").

(** [f" (~{filesize // (1024*1024)}MB)" if filesize else ""] *)
Definition size_str (fmt : RawFormat) : string :=
  if Py.truthy_int (filesize fmt)
  then " (~" +:+ Py.str_int (default 0 (filesize fmt) `div` (1024 * 1024)) +:+ "MB)"
  else "".

(** [fmt.get('ext', 'unknown')] *)
Definition ext_of (fmt : RawFormat) : string := default "unknown" (ext fmt).

(** The label built in the first branch of the loop. *)
Definition video_quality_str (fmt : RawFormat) : string :=
  let h := default 0 (height fmt) in
  let quality_str := Py.str_int h +:+ "p" in
  let quality_str :=
    if Py.truthy_int (fps fmt) && (30 <? default 0 (fps fmt))
    then quality_str +:+ Py.str_int (default 0 (fps fmt))
    else quality_str in
  quality_str +:+ " (" +:+ ext_of fmt +:+ ")" +:+ size_str fmt.

(** The label built in the second branch of the loop. *)
Definition audio_quality_str (fmt : RawFormat) : string :=
  Py.str_int (Py.int_of_float (default 0%Qc (abr fmt)))
    +:+ "kbps (" +:+ ext_of fmt +:+ ")" +:+ size_str fmt.

(** One iteration of [for fmt in formats]; the state is the pair
    [(video_formats, audio_formats)]. *)
Definition loop_body (acc : list entry * list entry) (fmt : RawFormat)
  : list entry * list entry :=
  let '(vs, as_) := acc in
  if not_none (vcodec fmt) && not_none (acodec fmt) then
    if Py.truthy_int (height fmt)
    then (vs ++ [(video_quality_str fmt, format_id fmt, fmt)], as_)
    else (vs, as_)
  else if not_none (acodec fmt) && is_none (vcodec fmt) then
    if Py.truthy_float (abr fmt)
    then (vs, as_ ++ [(audio_quality_str fmt, format_id fmt, fmt)])
    else (vs, as_)
  else (vs, as_).

(** The conditions under which an iteration appends to [video_formats],
    respectively to [audio_formats]. *)
Definition usable_video (fmt : RawFormat) : bool :=
  not_none (vcodec fmt) && not_none (acodec fmt) && Py.truthy_int (height fmt).

Definition usable_audio (fmt : RawFormat) : bool :=
  negb (not_none (vcodec fmt) && not_none (acodec fmt))
  && (not_none (acodec fmt) && is_none (vcodec fmt))
  && Py.truthy_float (abr fmt).

Definition video_entry (fmt : RawFormat) : option entry :=
  if usable_video fmt then Some (video_quality_str fmt, format_id fmt, fmt) else None.

Definition audio_entry (fmt : RawFormat) : option entry :=
  if usable_audio fmt then Some (audio_quality_str fmt, format_id fmt, fmt) else None.

(** [x[2].get('height', 0)] and [x[2].get('abr', 0)] *)
Definition height_key (e : entry) : Z := default 0 (height (entry_fmt e)).
Definition abr_key (e : entry) : Qc := default 0%Qc (abr (entry_fmt e)).

(** How many entries of a list carry the descriptor [d], and how many
    times [d] is listed in the probe result. *)
Definition carrying (d : RawFormat) (l : list entry) : nat :=
  length (filter (λ e, entry_fmt e = d) l).

Definition occurrences (d : RawFormat) (formats : list RawFormat) : nat :=
  length (filter (λ x, x = d) formats).

(** [f"{duration // 60}:{duration % 60:02d}" if duration else "Unknown"],
    with [duration = info.get('duration', 0)]: the format code [d] takes an
    [int] and raises [ValueError] on a [float]. *)
Definition duration_str (d : option Py.number) : Py.outcome string :=
  let duration := default (Py.Int 0) d in
  if Py.truthy_number (Some duration) then
    match duration with
    | Py.Int z =>
        Py.Value (Py.str_int (z `div` 60) +:+ ":" +:+ Py.format_02d (z `mod` 60))
    | Py.Float _ =>
        Py.Raise "Unknown format code 'd' for object of type 'float'"
    end
  else Py.Value "Unknown".

(** The body of [run] after the [info is None] test, but for line 88:
    the dict it builds, given the label [duration_str] that line 88
    computes. *)
Definition process (info : RawInfo) (duration_str : string) : result :=
  let formats := default [] (info_formats info) in
  let '(vs, as_) := foldl loop_body ([], []) formats in
  let vs := Py.sort_reverse height_key Z.ltb vs in
  let as_ := Py.sort_reverse abr_key Py.float_ltb as_ in
  {| title := default "Unknown Title" (info_title info);
     duration := duration_str;
     video_formats := vs;
     audio_formats := as_ |}.

(** [run], given what the collaborator's probe did. An exception raised in
    the body, as by line 88, is caught by the [except] clause like one of
    the probe. *)
Definition run (o : extract_outcome) : signal :=
  match o with
  | Raised msg => error ("Error fetching video info: " +:+ msg)
  | Returned None => error "Failed to extract video information"
  | Returned (Some info) =>
      match duration_str (info_duration info) with
      | Py.Value label => finished (process info label)
      | Py.Raise exc => error ("Error fetching video info: " +:+ exc)
      end
  end.

End VideoInfoThread.

(** ** Options handed to yt-dlp *)

(** A post-processor description, as in [ydl_opts['postprocessors']]. *)
Record postprocessor := {
  key : string;
  preferredcodec : string;
  preferredquality : string;
}.

(** The values stored in a [ydl_opts] dict. *)
Inductive pyval :=
| VBool (b : bool)
| VStr (s : string)
| VSslContext
| VPostprocessors (l : list postprocessor)
| VProgressHooks.

Global Instance postprocessor_eq_dec : EqDecision postprocessor.
Proof. solve_decision. Defined.
Global Instance pyval_eq_dec : EqDecision pyval.
Proof. solve_decision. Defined.

(** ** class DownloadThread *)

Module DownloadThread.

(** The attributes set by [__init__]. *)
Record t := {
  url : string;
  save_path : string;
  ydl_opts : gmap string pyval;
}.

(** The dict yt-dlp passes to a progress hook; yt-dlp always supplies
    [status] and [filename]. *)
Record progress_dict := {
  status : string;
  _percent_str : option string;
  _speed_str : option string;
  filename : string;
}.

Inductive signal :=
| progress (msg : string)
| finished (msg : string)
| error (msg : string).

(** What [ydl.download([self.url])] (or building the [YoutubeDL] object)
    did after its hook calls: returned, or raised [e] with
    [str(e) = msg]. *)
Inductive download_outcome :=
| Returned
| Raised (msg : string).

(** [progress_hook]: the signals emitted for one callback. *)
Definition progress_hook (d : progress_dict) : list signal :=
  if String.eqb (status d) "downloading" then
    let percent := default "N/A" (_percent_str d) in
    let speed := default "N/A" (_speed_str d) in
    [progress ("Downloading... " +:+ percent +:+ " at " +:+ speed)]
  else if String.eqb (status d) "finished" then
    [progress ("Download finished: " +:+ Py.basename (filename d))]
  else [].

(** [run]: the thread after [ydl_opts['progress_hooks']] is set, and the
    signals emitted, given the hook calls the collaborator makes and how
    its download call ends. *)
Definition run (self : t) (calls : list progress_dict) (o : download_outcome)
  : t * list signal :=
  let self' := {| url := url self; save_path := save_path self;
                  ydl_opts := <["progress_hooks" := VProgressHooks]> (ydl_opts self) |} in
  (self',
   flat_map progress_hook calls ++
   match o with
   | Returned => [finished "Download completed successfully!"]
   | Raised msg => [error ("Download failed: " +:+ msg)]
   end).

(** The messages of the [finished], respectively [error], signals among
    the signals emitted. *)
Definition successes (sigs : list signal) : list string :=
  omap (λ sig, match sig with finished m => Some m | _ => None end) sigs.

Definition failures (sigs : list signal) : list string :=
  omap (λ sig, match sig with error m => Some m | _ => None end) sigs.

Definition progress_messages (sigs : list signal) : list string :=
  omap (λ sig, match sig with progress m => Some m | _ => None end) sigs.

End DownloadThread.

(** ** class YouTubeDownloader *)

Module YouTubeDownloader.

(** A [QListWidget]: its rows and [currentRow()] ([-1] when none). *)
Record QListWidget := {
  items : list string;
  currentRow : Z;
}.

Definition clear : QListWidget := {| items := []; currentRow := -1 |}.
Definition addItem (q : string) (w : QListWidget) : QListWidget :=
  {| items := items w ++ [q]; currentRow := currentRow w |}.
Definition setCurrentRow (r : Z) (w : QListWidget) : QListWidget :=
  {| items := items w; currentRow := r |}.
Definition count (w : QListWidget) : Z := Z.of_nat (length (items w)).

(** A [QThread] object and whether it has been started and has not yet
    delivered its terminal signal. *)
Record QThread (A : Type) := {
  thread : A;
  isRunning : bool;
}.
Global Arguments thread {A} _.
Global Arguments isRunning {A} _.

(** What a slot does besides changing the window: the dialogs it shows,
    the threads it starts, an exception it lets escape. *)
Inductive effect :=
| warning (title msg : string)
| critical (title msg : string)
| information (title msg : string)
| start_video_thread
| start_download_thread
| uncaught (exc : string).

(** [setup_yt_dlp]: [self.ydl_opts_base], never changed afterwards. *)
Definition ydl_opts_base : gmap string pyval :=
  <["no_warnings" := VBool false]> (
  <["extract_flat" := VBool false]> (
  <["writesubtitles" := VBool false]> (
  <["writeautomaticsub" := VBool false]> (
  <["ignoreerrors" := VBool true]> (
  <["ssl_context" := VSslContext]> (
  <["quiet" := VBool true]> ∅)))))).

(** The attributes and widgets the slots read or write. *)
Record t := {
  video_formats : list entry;
  audio_formats : list entry;
  video_thread : option (QThread (string * gmap string pyval));
  download_thread : option (QThread DownloadThread.t);
  url_entry : string;
  fetch_btn : bool;
  radio_video : bool;
  video_list : QListWidget;
  audio_list : QListWidget;
  save_entry : string;
  download_btn : bool;
  status_label : string;
  progress_label : string;
  log_text : list string;
}.

(** [__init__] and [init_ui]; [downloads] is [str(Path.home() / "Downloads")]. *)
Definition init (downloads : string) : t :=
  {| video_formats := []; audio_formats := [];
     video_thread := None; download_thread := None;
     url_entry := ""; fetch_btn := true; radio_video := true;
     video_list := clear; audio_list := clear;
     save_entry := downloads; download_btn := true;
     status_label := "Ready"; progress_label := ""; log_text := [] |}.

(** [\w] or ["-"] on an ASCII character. *)
Definition id_char (c : ascii) : bool :=
  let n := N_of_ascii c in
  ((48 <=? n) && (n <=? 57) || (65 <=? n) && (n <=? 90)
   || (97 <=? n) && (n <=? 122) || (n =? 95) || (n =? 45))%N.

(** [re.match] of [(?:https?://)(?:www\.)?<host_path>[\w-]+]. *)
Definition match_pattern (host_path url : string) : bool :=
  let after_scheme :=
    match Py.strip_prefix "https://" url with
    | Some r => Some r
    | None => Py.strip_prefix "http://" url
    end in
  match after_scheme with
  | None => false
  | Some r =>
      let r := default r (Py.strip_prefix "www." r) in
      match Py.strip_prefix host_path r with
      | Some (String c _) => id_char c
      | _ => false
      end
  end.

Definition youtube_patterns : list string :=
  ["youtube.com/watch?v="; "youtu.be/"; "youtube.com/embed/"; "youtube.com/v/"].

Definition validate_url (url : string) : bool :=
  existsb (λ p, match_pattern p url) youtube_patterns.

Definition set_log (log : list string) (s : t) : t :=
  {| video_formats := video_formats s; audio_formats := audio_formats s;
     video_thread := video_thread s; download_thread := download_thread s;
     url_entry := url_entry s; fetch_btn := fetch_btn s;
     radio_video := radio_video s;
     video_list := video_list s; audio_list := audio_list s;
     save_entry := save_entry s; download_btn := download_btn s;
     status_label := status_label s; progress_label := progress_label s;
     log_text := log |}.

(** [log_message] *)
Definition log_message (message : string) (s : t) : t :=
  set_log (log_text s ++ [message]) s.

(** [fetch_video_info] *)
Definition fetch_video_info (s : t) : t * list effect :=
  let url := Py.strip (url_entry s) in
  if String.eqb url "" then
    (s, [warning "Error" "Please enter a YouTube URL"])
  else if negb (validate_url url) then
    (s, [warning "Error" "Please enter a valid YouTube URL"])
  else
    ({| video_formats := []; audio_formats := [];
        video_thread := Some {| thread := (url, ydl_opts_base); isRunning := true |};
        download_thread := download_thread s;
        url_entry := url_entry s; fetch_btn := false;
        radio_video := radio_video s;
        video_list := clear; audio_list := clear;
        save_entry := save_entry s; download_btn := download_btn s;
        status_label := "Fetching video information...";
        progress_label := "Working...";
        log_text := log_text s |},
     [start_video_thread]).

(** [on_video_info_received] *)
Definition on_video_info_received (info : VideoInfoThread.result) (s : t)
  : t * list effect :=
  let vl := foldl (λ w e, addItem (entry_label e) w) (video_list s)
              (VideoInfoThread.video_formats info) in
  let al := foldl (λ w e, addItem (entry_label e) w) (audio_list s)
              (VideoInfoThread.audio_formats info) in
  let vl := if 0 <? count vl then setCurrentRow 0 vl else vl in
  let al := if 0 <? count al then setCurrentRow 0 al else al in
  ({| video_formats := VideoInfoThread.video_formats info;
      audio_formats := VideoInfoThread.audio_formats info;
      video_thread := video_thread s; download_thread := download_thread s;
      url_entry := url_entry s; fetch_btn := true;
      radio_video := radio_video s;
      video_list := vl; audio_list := al;
      save_entry := save_entry s; download_btn := true;
      status_label := "Video info fetched"; progress_label := "Ready";
      log_text := log_text s
        ++ ["Title: " +:+ VideoInfoThread.title info;
            "Duration: " +:+ VideoInfoThread.duration info] |},
   []).

(** [on_video_info_error] *)
Definition on_video_info_error (error_msg : string) (s : t) : t * list effect :=
  ({| video_formats := video_formats s; audio_formats := audio_formats s;
      video_thread := video_thread s; download_thread := download_thread s;
      url_entry := url_entry s; fetch_btn := true;
      radio_video := radio_video s;
      video_list := video_list s; audio_list := audio_list s;
      save_entry := save_entry s; download_btn := download_btn s;
      status_label := "Error"; progress_label := "";
      log_text := log_text s ++ ["ERROR: " +:+ error_msg] |},
   [critical "Error" error_msg]).

(** [browse_folder]; [folder] is what the directory dialog returned
    (empty when cancelled). *)
Definition browse_folder (folder : string) (s : t) : t :=
  if String.eqb folder "" then s else
  {| video_formats := video_formats s; audio_formats := audio_formats s;
     video_thread := video_thread s; download_thread := download_thread s;
     url_entry := url_entry s; fetch_btn := fetch_btn s;
     radio_video := radio_video s;
     video_list := video_list s; audio_list := audio_list s;
     save_entry := folder; download_btn := download_btn s;
     status_label := status_label s; progress_label := progress_label s;
     log_text := log_text s |}.

(** The two post-processing settings of [start_download]. *)
Definition extract_audio : postprocessor :=
  {| key := "FFmpegExtractAudio"; preferredcodec := "mp3";
     preferredquality := "192" |}.

(** The window once [start_download] has passed its checks and built
    [ydl_opts]. *)
Definition launch (url save_path : string) (opts : gmap string pyval) (s : t)
  : t * list effect :=
  ({| video_formats := video_formats s; audio_formats := audio_formats s;
      video_thread := video_thread s;
      download_thread :=
        Some {| thread := {| DownloadThread.url := url;
                             DownloadThread.save_path := save_path;
                             DownloadThread.ydl_opts := opts |};
                isRunning := true |};
      url_entry := url_entry s; fetch_btn := false;
      radio_video := radio_video s;
      video_list := video_list s; audio_list := audio_list s;
      save_entry := save_entry s; download_btn := false;
      status_label := "Downloading...";
      progress_label := "Starting download...";
      log_text := log_text s |},
   [start_download_thread]).

(** [start_download]; [path_exists] is [os.path.exists] at the time of
    the call. Indexing a list past its end raises [IndexError]. *)
Definition start_download (path_exists : string → bool) (s : t) : t * list effect :=
  let url := Py.strip (url_entry s) in
  let save_path := Py.strip (save_entry s) in
  if String.eqb url "" then
    (s, [warning "Error" "Please enter a YouTube URL"])
  else if String.eqb save_path "" || negb (path_exists save_path) then
    (s, [warning "Error" "Please select a valid save location"])
  else
    let video_row := currentRow (video_list s) in
    let audio_row := currentRow (audio_list s) in
    let missing :=
      if radio_video s then
        if video_row <? 0 then Some "Please select a video quality"
        else if audio_row <? 0 then Some "Please select an audio quality"
        else None
      else
        if audio_row <? 0 then Some "Please select an audio quality"
        else None in
    match missing with
    | Some msg => (s, [warning "Error" msg])
    | None =>
      let ydl_opts :=
        <["outtmpl" := VStr (Py.path_join save_path "%(title)s.%(ext)s")]> ydl_opts_base in
      if radio_video s then
        match video_formats s !! Z.to_nat video_row,
              audio_formats s !! Z.to_nat audio_row with
        | Some v, Some a =>
            let video_format_id := entry_id v in
            let audio_format_id := entry_id a in
            let ydl_opts :=
              <["format" := VStr (video_format_id +:+ "+" +:+ audio_format_id +:+ "/best")]> ydl_opts in
            let ydl_opts := <["merge_output_format" := VStr "mp4"]> ydl_opts in
            launch url save_path ydl_opts s
        | _, _ => (s, [uncaught "IndexError"])
        end
      else
        match audio_formats s !! Z.to_nat audio_row with
        | Some a =>
            let audio_format_id := entry_id a in
            let ydl_opts := <["format" := VStr audio_format_id]> ydl_opts in
            let ydl_opts := <["postprocessors" := VPostprocessors [extract_audio]]> ydl_opts in
            launch url save_path ydl_opts s
        | None => (s, [uncaught "IndexError"])
        end
    end.

(** [on_download_progress] *)
Definition on_download_progress (message : string) (s : t) : t * list effect :=
  ({| video_formats := video_formats s; audio_formats := audio_formats s;
      video_thread := video_thread s; download_thread := download_thread s;
      url_entry := url_entry s; fetch_btn := fetch_btn s;
      radio_video := radio_video s;
      video_list := video_list s; audio_list := audio_list s;
      save_entry := save_entry s; download_btn := download_btn s;
      status_label := status_label s; progress_label := message;
      log_text := log_text s ++ [message] |},
   []).

(** [on_download_finished] *)
Definition on_download_finished (message : string) (s : t) : t * list effect :=
  ({| video_formats := video_formats s; audio_formats := audio_formats s;
      video_thread := video_thread s; download_thread := download_thread s;
      url_entry := url_entry s; fetch_btn := true;
      radio_video := radio_video s;
      video_list := video_list s; audio_list := audio_list s;
      save_entry := save_entry s; download_btn := true;
      status_label := "Download completed"; progress_label := "Done";
      log_text := log_text s ++ [message] |},
   [information "Success" message]).

(** [on_download_error] *)
Definition on_download_error (error_msg : string) (s : t) : t * list effect :=
  ({| video_formats := video_formats s; audio_formats := audio_formats s;
      video_thread := video_thread s; download_thread := download_thread s;
      url_entry := url_entry s; fetch_btn := true;
      radio_video := radio_video s;
      video_list := video_list s; audio_list := audio_list s;
      save_entry := save_entry s; download_btn := true;
      status_label := "Download failed"; progress_label := "Failed";
      log_text := log_text s ++ ["ERROR: " +:+ error_msg] |},
   [critical "Download Error" error_msg]).

(** *** The Qt event loop

    The slots above run one at a time on the GUI thread, each in answer to
    an event: an action of the user on an enabled widget, or a signal of a
    running thread. A click on a disabled button reaches no slot. *)

Definition running {A} (th : option (QThread A)) : bool :=
  match th with
  | Some q => isRunning q
  | None => false
  end.

Definition stopped {A} (th : option (QThread A)) : option (QThread A) :=
  match th with
  | Some q => Some {| thread := thread q; isRunning := false |}
  | None => None
  end.

Definition set_threads (vt : option (QThread (string * gmap string pyval)))
    (dt : option (QThread DownloadThread.t)) (s : t) : t :=
  {| video_formats := video_formats s; audio_formats := audio_formats s;
     video_thread := vt; download_thread := dt;
     url_entry := url_entry s; fetch_btn := fetch_btn s;
     radio_video := radio_video s;
     video_list := video_list s; audio_list := audio_list s;
     save_entry := save_entry s; download_btn := download_btn s;
     status_label := status_label s; progress_label := progress_label s;
     log_text := log_text s |}.

(** The user's edits of the input widgets. *)
Definition set_inputs (url : string) (video : bool) (vl al : QListWidget) (s : t) : t :=
  {| video_formats := video_formats s; audio_formats := audio_formats s;
     video_thread := video_thread s; download_thread := download_thread s;
     url_entry := url; fetch_btn := fetch_btn s;
     radio_video := video;
     video_list := vl; audio_list := al;
     save_entry := save_entry s; download_btn := download_btn s;
     status_label := status_label s; progress_label := progress_label s;
     log_text := log_text s |}.

(** Clicking row [row] of a list widget. *)
Definition select (row : nat) (w : QListWidget) : QListWidget :=
  if Z.of_nat row <? count w then setCurrentRow (Z.of_nat row) w else w.

Inductive event :=
| edit_url (text : string)
| click_radio (video : bool)
| select_video (row : nat)
| select_audio (row : nat)
| click_browse (folder : string)
| click_fetch
| click_download (path_exists : string → bool)
| video_info_signal (o : VideoInfoThread.extract_outcome)
| download_hook (d : DownloadThread.progress_dict)
| download_end (o : DownloadThread.download_outcome).

(** The slot connected to each signal of the download thread. *)
Definition download_slot (sig : DownloadThread.signal) (s : t) : t * list effect :=
  match sig with
  | DownloadThread.progress m => on_download_progress m s
  | DownloadThread.finished m => on_download_finished m s
  | DownloadThread.error m => on_download_error m s
  end.

Definition deliver (sigs : list DownloadThread.signal) (s : t) : t * list effect :=
  foldl (λ acc sig, let '(s', effs) := download_slot sig acc.1 in (s', acc.2 ++ effs))
    (s, []) sigs.

Definition dispatch (ev : event) (s : t) : t * list effect :=
  match ev with
  | edit_url text =>
      (set_inputs text (radio_video s) (video_list s) (audio_list s) s, [])
  | click_radio video =>
      (set_inputs (url_entry s) video (video_list s) (audio_list s) s, [])
  | select_video row =>
      (set_inputs (url_entry s) (radio_video s) (select row (video_list s)) (audio_list s) s, [])
  | select_audio row =>
      (set_inputs (url_entry s) (radio_video s) (video_list s) (select row (audio_list s)) s, [])
  | click_browse folder => (browse_folder folder s, [])
  | click_fetch => if fetch_btn s then fetch_video_info s else (s, [])
  | click_download path_exists =>
      if download_btn s then start_download path_exists s else (s, [])
  | video_info_signal o =>
      if running (video_thread s) then
        let s := set_threads (stopped (video_thread s)) (download_thread s) s in
        match VideoInfoThread.run o with
        | VideoInfoThread.finished info => on_video_info_received info s
        | VideoInfoThread.error msg => on_video_info_error msg s
        end
      else (s, [])
  | download_hook d =>
      if running (download_thread s)
      then deliver (DownloadThread.progress_hook d) s
      else (s, [])
  | download_end o =>
      match download_thread s with
      | Some q =>
          if isRunning q then
            let s := set_threads (video_thread s) (stopped (download_thread s)) s in
            deliver (DownloadThread.run (thread q) [] o).2 s
          else (s, [])
      | None => (s, [])
      end
  end.

(** The window after a sequence of events. *)
Definition run_events (evs : list event) (s : t) : t :=
  foldl (λ s ev, (dispatch ev s).1) s evs.

(** The windows the program can be in. *)
Definition reachable (s : t) : Prop :=
  ∃ downloads evs, s = run_events evs (init downloads).

(** What holds of every window the program can be in: the list widgets
    show the stored formats, the current rows are rows of the lists (or
    [-1]), the download button is enabled exactly when no download runs,
    the fetch button is disabled and the lists are empty while a probe
    runs, and a probe and a download never run together. *)
Definition consistent (s : t) : Prop :=
  items (video_list s) = entry_label <$> video_formats s
  ∧ items (audio_list s) = entry_label <$> audio_formats s
  ∧ (-1 ≤ currentRow (video_list s) < count (video_list s))
  ∧ (-1 ≤ currentRow (audio_list s) < count (audio_list s))
  ∧ download_btn s = negb (running (download_thread s))
  ∧ (running (video_thread s) = true →
     fetch_btn s = false ∧ video_list s = clear ∧ audio_list s = clear
     ∧ running (download_thread s) = false)
  ∧ (running (download_thread s) = true → fetch_btn s = false).

(** An event other than the end of the download. *)
Definition not_download_end (ev : event) : Prop :=
  match ev with
  | download_end _ => False
  | _ => True
  end.

End YouTubeDownloader.

(** ** The labels in words

    [Spec] writes the labels out the way the specification words them, to
    be compared with what the loop of [VideoInfoThread.run] builds; [Label]
    writes out, case by case, what the loop builds. *)

Module Spec.

(** [round(b)]: the nearest integer, a tie going to the even one. *)
Definition round (b : Qc) : Z :=
  let f := Qfloor (this b) in
  match Qcompare (2 * (this b - inject_Z f)) 1 with
  | Lt => f
  | Gt => f + 1
  | Eq => if Z.even f then f else f + 1
  end.

(** [" (~<s div 1MiB>MB)"] exactly when the size is known. *)
Definition size_suffix (s : option Z) : string :=
  match s with
  | Some s => " (~" +:+ Py.str_int (s `div` 1048576) +:+ "MB)"
  | None => ""
  end.

(** ["<f>"] exactly when [f > 30]. *)
Definition fps_suffix (f : option Z) : string :=
  match f with
  | Some f => if 30 <? f then Py.str_int f else ""
  | None => ""
  end.

Definition video_label (h : Z) (f : option Z) (e : string) (s : option Z) : string :=
  Py.str_int h +:+ "p" +:+ fps_suffix f +:+ " (" +:+ e +:+ ")" +:+ size_suffix s.

Definition audio_label (b : Qc) (e : string) (s : option Z) : string :=
  Py.str_int (round b) +:+ "kbps (" +:+ e +:+ ")" +:+ size_suffix s.

End Spec.

Module Label.

(** The size suffix: present when the size is known and not zero. *)
Definition size_suffix (s : option Z) : string :=
  match s with
  | Some s =>
      if s =? 0 then "" else " (~" +:+ Py.str_int (s `div` 1048576) +:+ "MB)"
  | None => ""
  end.

(** The text after the quality, for the extension [ext] (["unknown"] when
    the descriptor has none). *)
Definition tail (d : RawFormat) : string :=
  " (" +:+ default "unknown" (ext d) +:+ ")" +:+ size_suffix (filesize d).

(** The label of a video descriptor of height [h]. *)
Definition video (h : Z) (d : RawFormat) : string :=
  Py.str_int h +:+ "p" +:+ Spec.fps_suffix (fps d) +:+ tail d.

(** The label of an audio descriptor whose bitrate has the integer part
    [t]. *)
Definition audio (t : Z) (d : RawFormat) : string :=
  Py.str_int t +:+ "kbps" +:+ tail d.

(** [t] is [b] with its fractional part dropped. *)
Definition integer_part (t : Z) (b : Qc) : Prop :=
  ((0 ≤ b → Qc_of_Z t ≤ b ∧ b < Qc_of_Z (t + 1))
   ∧ (b ≤ 0 → Qc_of_Z (t - 1) < b ∧ b ≤ Qc_of_Z t))%Qc.

End Label.

(** ** Sample probe results *)

Module Example.

(** [{height: 720, ext: "mp4", vcodec: "avc1", acodec: "aac", fps: 30}] *)
Definition fmt_720p (id : string) : RawFormat :=
  {| format_id := id; vcodec := Some "avc1"; acodec := Some "aac";
     height := Some 720; fps := Some 30; ext := Some "mp4";
     filesize := None; abr := None |}.

(** [{acodec: "mp3", vcodec: "none", abr: 128, ext: "mp3"}] *)
Definition fmt_mp3 (id : string) : RawFormat :=
  {| format_id := id; vcodec := Some "none"; acodec := Some "mp3";
     height := None; fps := None; ext := Some "mp3";
     filesize := None; abr := Some (Q2Qc 128) |}.

Definition probe (id1 id2 : string) : RawInfo :=
  {| info_title := Some "clip"; info_duration := Some (Py.Int 125);
     info_formats := Some [fmt_720p id1; fmt_mp3 id2] |}.


(** A descriptor without an [acodec] key. *)
Definition fmt_no_acodec : RawFormat :=
  {| format_id := "139"; vcodec := Some "none"; acodec := None;
     height := None; fps := None; ext := Some "m4a";
     filesize := None; abr := Some (Q2Qc 48) |}.

(** An audio descriptor with the bitrate 128.75 kbps. *)
Definition fmt_abr_128_75 : RawFormat :=
  {| format_id := "140"; vcodec := Some "none"; acodec := Some "mp3";
     height := None; fps := None; ext := Some "mp3";
     filesize := None; abr := Some (Q2Qc (515 # 4)) |}.

(** A video descriptor whose size is reported as 0 bytes. *)
Definition fmt_size_0 : RawFormat :=
  {| format_id := "22"; vcodec := Some "avc1"; acodec := Some "aac";
     height := Some 720; fps := Some 30; ext := Some "mp4";
     filesize := Some 0; abr := None |}.

(** The sample probe result with the duration 125.0, a float. *)
Definition probe_float_duration : RawInfo :=
  {| info_title := Some "clip"; info_duration := Some (Py.Float (Q2Qc 125));
     info_formats := Some [fmt_720p "137"; fmt_mp3 "140"] |}.

Definition probe_of (formats : list RawFormat) : RawInfo :=
  {| info_title := Some "clip"; info_duration := Some (Py.Int 125);
     info_formats := Some formats |}.

(** The window after the sample probe result of a valid URL has
    arrived. *)
Definition resolved : YouTubeDownloader.t :=
  YouTubeDownloader.run_events
    [YouTubeDownloader.edit_url "https://www.youtube.com/watch?v=dQw4w9WgXcQ";
     YouTubeDownloader.click_fetch;
     YouTubeDownloader.video_info_signal
       (VideoInfoThread.Returned (Some (probe "137" "140")))]
    (YouTubeDownloader.init "/home/user/Downloads").

(** The window while the probe is still running. *)
Definition resolving : YouTubeDownloader.t :=
  YouTubeDownloader.run_events
    [YouTubeDownloader.edit_url "https://www.youtube.com/watch?v=dQw4w9WgXcQ";
     YouTubeDownloader.click_fetch]
    (YouTubeDownloader.init "/home/user/Downloads").

(** Every path exists. *)
Definition any_path (p : string) : bool := true.

(** The window while a download of the selected pair is running. *)
Definition downloading : YouTubeDownloader.t :=
  YouTubeDownloader.run_events
    [YouTubeDownloader.click_download any_path] resolved.

(** The same with the audio-only type chosen. *)
Definition downloading_audio : YouTubeDownloader.t :=
  YouTubeDownloader.run_events
    [YouTubeDownloader.click_radio false;
     YouTubeDownloader.click_download any_path] resolved.

(** A progress callback of each kind. *)
Definition hook_downloading : DownloadThread.progress_dict :=
  {| DownloadThread.status := "downloading";
     DownloadThread._percent_str := Some " 42.0%";
     DownloadThread._speed_str := Some "1.21MiB/s";
     DownloadThread.filename := "/home/user/Downloads/clip.f137.mp4" |}.

Definition hook_finished : DownloadThread.progress_dict :=
  {| DownloadThread.status := "finished";
     DownloadThread._percent_str := None;
     DownloadThread._speed_str := None;
     DownloadThread.filename := "/home/user/Downloads/clip.f137.mp4" |}.

End Example.

(** ** Notions used by the further properties *)

Module Url.

(** The URLs the four patterns of [validate_url] describe: a scheme,
    [www.] or nothing, one of the host-and-path prefixes, one character
    of [[\w-]], and then any text at all. *)
Definition shaped (url : string) : Prop :=
  ∃ scheme www host_path c rest,
    scheme ∈ ["http://"; "https://"]
    ∧ www ∈ [""; "www."]
    ∧ host_path ∈ YouTubeDownloader.youtube_patterns
    ∧ YouTubeDownloader.id_char c = true
    ∧ url = scheme +:+ www +:+ host_path +:+ String c rest.

End Url.

Module Text.

(** Every character of [s] is white space. *)
Fixpoint all_space (s : string) : bool :=
  match s with
  | EmptyString => true
  | String c s' => Py.isspace c && all_space s'
  end.

End Text.

Module Window.

(** What the buttons and the status line show of the running threads. *)
Definition tracking (s : YouTubeDownloader.t) : Prop :=
  YouTubeDownloader.fetch_btn s
    = negb (YouTubeDownloader.running (YouTubeDownloader.video_thread s)
            || YouTubeDownloader.running (YouTubeDownloader.download_thread s))
  ∧ (YouTubeDownloader.running (YouTubeDownloader.video_thread s) = true →
     YouTubeDownloader.status_label s = "Fetching video information..."
     ∧ YouTubeDownloader.progress_label s = "Working...")
  ∧ (YouTubeDownloader.running (YouTubeDownloader.download_thread s) = true →
     YouTubeDownloader.status_label s = "Downloading...").

(** The checks of [start_download], in the order it makes them. *)
Definition ready (path_exists : string → bool) (s : YouTubeDownloader.t) : Prop :=
  Py.strip (YouTubeDownloader.url_entry s) ≠ ""
  ∧ Py.strip (YouTubeDownloader.save_entry s) ≠ ""
  ∧ path_exists (Py.strip (YouTubeDownloader.save_entry s)) = true
  ∧ (YouTubeDownloader.radio_video s = true →
     0 ≤ YouTubeDownloader.currentRow (YouTubeDownloader.video_list s))
  ∧ 0 ≤ YouTubeDownloader.currentRow (YouTubeDownloader.audio_list s).

End Window.

(** * Properties *)

(** ** The stable descending sort *)

Section sort_facts.
Context {A K : Type} (key : A → K) (lt : K → K → bool).
Hypothesis lt_irrefl : ∀ a, lt a a = false.
Hypothesis lt_trans : ∀ a b c, lt a b = true → lt b c = true → lt a c = true.
Hypothesis lt_cotrans : ∀ a b c, lt a c = true → lt a b = true ∨ lt b c = true.

Lemma lt_asym a b : lt a b = true → lt b a = false.
Proof using lt_irrefl lt_trans.
  intros Hab. destruct (lt b a) eqn:Hba; [|done].
  by rewrite <-(lt_irrefl a), (lt_trans a b a).
Qed.

Lemma not_below_trans x y z :
  Py.not_below key lt x y → Py.not_below key lt y z → Py.not_below key lt x z.
Proof using lt_cotrans.
  unfold Py.not_below. intros Hxy Hyz.
  destruct (lt (key x) (key z)) eqn:Hxz; [|done].
  destruct (lt_cotrans _ (key y) _ Hxz); congruence.
Qed.

Lemma insert_desc_perm x l : Py.insert_desc key lt x l ≡ₚ x :: l.
Proof.
  induction l as [|y l IH]; simpl; [done|].
  destruct (lt (key x) (key y)); [|done].
  by rewrite IH, Permutation_swap.
Qed.

Lemma sort_reverse_perm l : Py.sort_reverse key lt l ≡ₚ l.
Proof.
  induction l as [|x l IH]; simpl; [done|].
  by rewrite insert_desc_perm, IH.
Qed.

Lemma insert_desc_sorted x l :
  StronglySorted (Py.not_below key lt) l →
  StronglySorted (Py.not_below key lt) (Py.insert_desc key lt x l).
Proof using lt_irrefl lt_trans lt_cotrans.
  induction 1 as [|y l Hl IH Hy]; simpl.
  { repeat constructor. }
  destruct (lt (key x) (key y)) eqn:Hxy.
  - constructor; [done|].
    rewrite insert_desc_perm. constructor; [|done].
    by apply lt_asym.
  - constructor; [by constructor|].
    constructor; [done|].
    eapply Forall_impl; [exact Hy|].
    intros z Hz. by apply (not_below_trans x y z).
Qed.

Lemma sort_reverse_sorted l : StronglySorted (Py.not_below key lt) (Py.sort_reverse key lt l).
Proof using lt_irrefl lt_trans lt_cotrans.
  induction l as [|x l IH]; simpl; [constructor|].
  by apply insert_desc_sorted.
Qed.

(** Insertion never moves [x] past an element with its own key. *)
Lemma insert_desc_filter k x l :
  filter (Py.same_key key lt k) (Py.insert_desc key lt x l)
  = filter (Py.same_key key lt k) (x :: l).
Proof using lt_cotrans.
  induction l as [|y l IH]; simpl; [done|].
  destruct (lt (key x) (key y)) eqn:Hxy; [|done].
  rewrite (filter_cons _ y), IH, !filter_cons.
  destruct (decide (Py.same_key key lt k y)) as [[Hy1 Hy2]|]; [|done].
  destruct (decide (Py.same_key key lt k x)) as [[Hx1 Hx2]|]; [|done].
  destruct (lt_cotrans _ k _ Hxy); congruence.
Qed.

Lemma sort_reverse_stable k l :
  filter (Py.same_key key lt k) (Py.sort_reverse key lt l) = filter (Py.same_key key lt k) l.
Proof using lt_cotrans.
  induction l as [|x l IH]; simpl; [done|].
  by rewrite insert_desc_filter, !filter_cons, IH.
Qed.
End sort_facts.

Lemma StronglySorted_weaken {A} (R R' : A → A → Prop) l :
  (∀ x y, R x y → R' x y) → StronglySorted R l → StronglySorted R' l.
Proof.
  intros HR. induction 1 as [|x l Hl IH Hx]; constructor; [done|].
  eapply Forall_impl; [exact Hx|]. auto.
Qed.

(** ** The order on the two kinds of sort key *)

Lemma Zltb_irrefl a : (a <? a) = false.
Proof. apply Z.ltb_irrefl. Qed.

Lemma Zltb_trans a b c : (a <? b) = true → (b <? c) = true → (a <? c) = true.
Proof. rewrite !Z.ltb_lt. lia. Qed.

Lemma Zltb_cotrans a b c : (a <? c) = true → (a <? b) = true ∨ (b <? c) = true.
Proof. rewrite !Z.ltb_lt. lia. Qed.

Lemma float_ltb_irrefl a : Py.float_ltb a a = false.
Proof. apply bool_decide_eq_false. apply irreflexivity, _. Qed.

Lemma float_ltb_trans a b c :
  Py.float_ltb a b = true → Py.float_ltb b c = true → Py.float_ltb a c = true.
Proof.
  unfold Py.float_ltb. rewrite !bool_decide_eq_true. apply Qclt_trans.
Qed.

Lemma float_ltb_cotrans a b c :
  Py.float_ltb a c = true → Py.float_ltb a b = true ∨ Py.float_ltb b c = true.
Proof.
  unfold Py.float_ltb. rewrite !bool_decide_eq_true. intros Hac.
  destruct (Qclt_le_dec a b) as [?|Hba]; [by left|right].
  by apply Qcle_lt_trans with a.
Qed.

Lemma same_key_Z {A} (key : A → Z) k y : Py.same_key key Z.ltb k y ↔ key y = k.
Proof. unfold Py.same_key. rewrite !Z.ltb_ge. lia. Qed.

Lemma same_key_float {A} (key : A → Qc) k y :
  Py.same_key key Py.float_ltb k y ↔ key y = k.
Proof.
  unfold Py.same_key, Py.float_ltb. rewrite !bool_decide_eq_false. split.
  - intros [H1 H2]. apply Qcle_antisym; by apply Qcnot_lt_le.
  - intros ->. split; apply irreflexivity, _.
Qed.

(** ** The resolver: classification *)

Section resolver.
Import VideoInfoThread.

Lemma is_none_not_none c : is_none c = negb (not_none c).
Proof. unfold is_none, not_none. by rewrite negb_involutive. Qed.

Lemma not_none_true c : not_none c = true ↔ c ≠ Some "none".
Proof. unfold not_none. by rewrite negb_true_iff, bool_decide_eq_false. Qed.

Lemma is_none_true c : is_none c = true ↔ c = Some "none".
Proof. unfold is_none. by rewrite bool_decide_eq_true. Qed.

(** The loop keeps, in the collaborator's order, the entries of the usable
    descriptors. *)
Lemma loop_spec formats vs as_ :
  foldl loop_body (vs, as_) formats
  = (vs ++ omap video_entry formats, as_ ++ omap audio_entry formats).
Proof.
  revert vs as_. induction formats as [|fmt formats IH]; intros vs as_; simpl.
  { by rewrite !app_nil_r. }
  unfold video_entry at 1, audio_entry at 1, usable_video, usable_audio.
  destruct (not_none (vcodec fmt) && not_none (acodec fmt)) eqn:Hv; simpl.
  - destruct (Py.truthy_int (height fmt)); simpl; rewrite IH; [|done].
    by rewrite <-app_assoc.
  - destruct (not_none (acodec fmt) && is_none (vcodec fmt)); simpl;
      [|by rewrite IH].
    destruct (Py.truthy_float (abr fmt)); simpl; rewrite IH; [|done].
    by rewrite <-app_assoc.
Qed.

Lemma process_video_formats info label :
  video_formats (process info label)
  = Py.sort_reverse height_key Z.ltb (omap video_entry (default [] (info_formats info))).
Proof. unfold process. by rewrite loop_spec. Qed.

Lemma process_audio_formats info label :
  audio_formats (process info label)
  = Py.sort_reverse abr_key Py.float_ltb (omap audio_entry (default [] (info_formats info))).
Proof. unfold process. by rewrite loop_spec. Qed.

Lemma video_formats_perm info label :
  video_formats (process info label) ≡ₚ omap video_entry (default [] (info_formats info)).
Proof. rewrite process_video_formats. apply sort_reverse_perm. Qed.

Lemma audio_formats_perm info label :
  audio_formats (process info label) ≡ₚ omap audio_entry (default [] (info_formats info)).
Proof. rewrite process_audio_formats. apply sort_reverse_perm. Qed.

Lemma carrying_perm d l1 l2 : l1 ≡ₚ l2 → carrying d l1 = carrying d l2.
Proof. unfold carrying. by intros ->. Qed.

Lemma usable_exclusive d : usable_video d = true → usable_audio d = false.
Proof.
  unfold usable_video, usable_audio.
  destruct (not_none (vcodec d) && not_none (acodec d)); [done|].
  by rewrite andb_false_l.
Qed.

Lemma carrying_entries (u : RawFormat → bool) (lab : RawFormat → string) d formats :
  carrying d (omap (λ x, if u x then Some (lab x, format_id x, x) else None) formats)
  = if u d then occurrences d formats else 0%nat.
Proof.
  unfold carrying, occurrences.
  induction formats as [|x formats IH]; [by destruct (u d)|].
  rewrite (filter_cons _ x formats).
  change (omap ?f (x :: formats))
    with (match f x with Some y => y :: omap f formats | None => omap f formats end).
  cbv beta. destruct (u x) eqn:Hx.
  - rewrite filter_cons. change (entry_fmt (lab x, format_id x, x)) with x.
    destruct (decide (x = d)) as [->|]; cbn [length]; rewrite IH; [|done].
    by rewrite Hx.
  - rewrite IH. destruct (decide (x = d)) as [->|]; [|done]. by rewrite Hx.
Qed.

Lemma carrying_video_entries d formats :
  carrying d (omap video_entry formats)
  = if usable_video d then occurrences d formats else 0%nat.
Proof. apply (carrying_entries usable_video video_quality_str). Qed.

Lemma carrying_audio_entries d formats :
  carrying d (omap audio_entry formats)
  = if usable_audio d then occurrences d formats else 0%nat.
Proof. apply (carrying_entries usable_audio audio_quality_str). Qed.

Lemma carrying_video info label d :
  carrying d (video_formats (process info label))
  = if usable_video d then occurrences d (default [] (info_formats info)) else 0%nat.
Proof.
  by rewrite (carrying_perm _ _ _ (video_formats_perm info label)), carrying_video_entries.
Qed.

Lemma carrying_audio info label d :
  carrying d (audio_formats (process info label))
  = if usable_audio d then occurrences d (default [] (info_formats info)) else 0%nat.
Proof.
  by rewrite (carrying_perm _ _ _ (audio_formats_perm info label)), carrying_audio_entries.
Qed.


End resolver.

(** ** The resolver: ranking *)

Section ranking.
Import VideoInfoThread.

(** The descriptors behind the kept entries that satisfy [P] are the
    usable descriptors that satisfy [P], in the collaborator's order. *)
Lemma fmt_filter_entries (u : RawFormat → bool) (lab : RawFormat → string)
    (P : RawFormat → Prop) `{∀ d, Decision (P d)} (formats : list RawFormat) :
  entry_fmt <$> filter (λ e, P (entry_fmt e))
    (omap (λ x, if u x then Some (lab x, format_id x, x) else None) formats)
  = filter (λ d, u d = true ∧ P d) formats.
Proof.
  induction formats as [|x formats IH]; [done|].
  rewrite (filter_cons _ x formats).
  change (omap ?f (x :: formats))
    with (match f x with Some y => y :: omap f formats | None => omap f formats end).
  cbv beta. destruct (u x) eqn:Hx.
  - rewrite filter_cons. change (entry_fmt (lab x, format_id x, x)) with x.
    destruct (decide (P x)).
    + rewrite decide_True by done. rewrite fmap_cons. f_equal. exact IH.
    + rewrite decide_False by tauto. done.
  - rewrite decide_False by (intros [? _]; congruence). done.
Qed.

Lemma usable_video_height d :
  usable_video d = true → ∃ h, height d = Some h ∧ h ≠ 0.
Proof.
  unfold usable_video. rewrite !andb_true_iff. intros [_ Hh].
  destruct (height d) as [h|]; [|done]. exists h. split; [done|].
  simpl in Hh. apply negb_true_iff, Z.eqb_neq in Hh. done.
Qed.

Lemma usable_audio_abr d :
  usable_audio d = true → ∃ b, abr d = Some b ∧ b ≠ 0%Qc.
Proof.
  unfold usable_audio. rewrite !andb_true_iff. intros [_ Hb].
  destruct (abr d) as [b|]; [|done]. exists b. split; [done|].
  intros ->. done.
Qed.

Lemma video_same_height info label h :
  entry_fmt <$> filter (λ e, height_key e = h) (video_formats (process info label))
  = filter (λ d, usable_video d = true ∧ height d = Some h)
      (default [] (info_formats info)).
Proof.
  rewrite process_video_formats.
  assert (Hf : ∀ l : list entry,
    filter (λ e, height_key e = h) l = filter (Py.same_key height_key Z.ltb h) l).
  { intros l. apply list_filter_iff. intros e. symmetry. apply same_key_Z. }
  rewrite Hf, sort_reverse_stable by apply Zltb_cotrans. rewrite <-Hf.
  etrans;
    [exact (fmt_filter_entries usable_video video_quality_str
              (λ d, default 0 (height d) = h) _)|].
  apply list_filter_iff. intros d. split; intros [Hu Hh]; (split; [done|]).
  - destruct (usable_video_height d Hu) as (h' & Hd & _).
    rewrite Hd in Hh |- *. simpl in Hh. by subst.
  - by rewrite Hh.
Qed.

Lemma audio_same_abr info label b :
  entry_fmt <$> filter (λ e, abr_key e = b) (audio_formats (process info label))
  = filter (λ d, usable_audio d = true ∧ abr d = Some b)
      (default [] (info_formats info)).
Proof.
  rewrite process_audio_formats.
  assert (Hf : ∀ l : list entry,
    filter (λ e, abr_key e = b) l = filter (Py.same_key abr_key Py.float_ltb b) l).
  { intros l. apply list_filter_iff. intros e. symmetry. apply same_key_float. }
  rewrite Hf, sort_reverse_stable by apply float_ltb_cotrans. rewrite <-Hf.
  etrans;
    [exact (fmt_filter_entries usable_audio audio_quality_str
              (λ d, default 0%Qc (abr d) = b) _)|].
  apply list_filter_iff. intros d. split; intros [Hu Hb]; (split; [done|]).
  - destruct (usable_audio_abr d Hu) as (b' & Hd & _).
    rewrite Hd in Hb |- *. simpl in Hb. by subst.
  - by rewrite Hb.
Qed.

Lemma video_sorted info label :
  StronglySorted (λ e1 e2, height_key e2 ≤ height_key e1)
    (video_formats (process info label)).
Proof.
  rewrite process_video_formats.
  eapply StronglySorted_weaken;
    [|apply sort_reverse_sorted;
      [apply Zltb_irrefl|apply Zltb_trans|apply Zltb_cotrans]].
  unfold Py.not_below. intros x y. rewrite Z.ltb_ge. done.
Qed.

Lemma audio_sorted info label :
  StronglySorted (λ e1 e2, (abr_key e2 ≤ abr_key e1)%Qc)
    (audio_formats (process info label)).
Proof.
  rewrite process_audio_formats.
  eapply StronglySorted_weaken;
    [|apply sort_reverse_sorted;
      [apply float_ltb_irrefl|apply float_ltb_trans|apply float_ltb_cotrans]].
  unfold Py.not_below, Py.float_ltb. intros x y.
  rewrite bool_decide_eq_false. apply Qcnot_lt_le.
Qed.
Lemma usable_video_iff d :
  usable_video d = true ↔
  vcodec d ≠ Some "none" ∧ acodec d ≠ Some "none"
  ∧ ∃ h, height d = Some h ∧ h ≠ 0.
Proof.
  split.
  - intros Hu. destruct (usable_video_height d Hu) as (h & Hh & Hne).
    unfold usable_video in Hu. rewrite !andb_true_iff, !not_none_true in Hu.
    destruct Hu as [[Hv Ha] _]. eauto.
  - intros (Hv & Ha & h & Hh & Hne). apply not_none_true in Hv, Ha.
    unfold usable_video. rewrite Hv, Ha, Hh. simpl.
    by apply negb_true_iff, Z.eqb_neq.
Qed.

Lemma truthy_float_nonzero b : Py.truthy_float (Some b) = true ↔ b ≠ 0%Qc.
Proof.
  simpl. rewrite negb_true_iff, Z.eqb_neq. split.
  - by intros Hn ->.
  - intros Hne Hn. apply Hne, Qc_is_canon.
    destruct b as [[n dn] Hc]. simpl in *. subst n. unfold Qeq. simpl. lia.
Qed.

Lemma usable_audio_iff d :
  usable_audio d = true ↔
  acodec d ≠ Some "none" ∧ vcodec d = Some "none"
  ∧ ∃ b, abr d = Some b ∧ b ≠ 0%Qc.
Proof.
  split.
  - intros Hu. destruct (usable_audio_abr d Hu) as (b & Hb & Hne).
    unfold usable_audio in Hu.
    rewrite !andb_true_iff, !not_none_true, is_none_true in Hu.
    destruct Hu as [[_ [Ha Hv]] _]. eauto.
  - intros (Ha & Hv & b & Hb & Hne). apply not_none_true in Ha.
    unfold usable_audio. rewrite Ha, Hb, (proj2 (is_none_true _) Hv).
    rewrite (proj2 (truthy_float_nonzero b) Hne).
    unfold not_none. by rewrite Hv.
Qed.
End ranking.

(** ** Claims on the resolver *)

Section resolver_claims.
Import VideoInfoThread.



(** C2. [video_formats] is sorted by height, descending, and
    [audio_formats] by bitrate, descending; the entries with one and the
    same sort key carry, in this order, the listed descriptors with that
    key that were kept, in the order of the collaborator's collection. *)
Theorem ranking_sorted_stable (info : RawInfo) (label : string) :
  StronglySorted (λ e1 e2, height_key e2 ≤ height_key e1)
    (video_formats (process info label))
  ∧ StronglySorted (λ e1 e2, (abr_key e2 ≤ abr_key e1)%Qc)
      (audio_formats (process info label))
  ∧ (∀ h : Z,
       entry_fmt <$> filter (λ e, height_key e = h) (video_formats (process info label))
       = filter (λ d, vcodec d ≠ Some "none" ∧ acodec d ≠ Some "none"
                      ∧ height d = Some h ∧ h ≠ 0)
           (default [] (info_formats info)))
  ∧ (∀ b : Qc,
       entry_fmt <$> filter (λ e, abr_key e = b) (audio_formats (process info label))
       = filter (λ d, acodec d ≠ Some "none" ∧ vcodec d = Some "none"
                      ∧ abr d = Some b ∧ b ≠ 0%Qc)
           (default [] (info_formats info))).
Proof.
  split; [apply video_sorted|].
  split; [apply audio_sorted|].
  split.
  - intros h. rewrite video_same_height. apply list_filter_iff. intros d.
    rewrite usable_video_iff. split.
    + intros ((Hv & Ha & h' & Hh' & Hne) & Hh). by simplify_eq.
    + intros (Hv & Ha & Hh & Hne). eauto 10.
  - intros b. rewrite audio_same_abr. apply list_filter_iff. intros d.
    rewrite usable_audio_iff. split.
    + intros ((Ha & Hv & b' & Hb' & Hne) & Hb). by simplify_eq.
    + intros (Ha & Hv & Hb & Hne). eauto 10.
Qed.


End resolver_claims.

(** ** Strings and numbers *)

Lemma string_app_cons c s t : String c s +:+ t = String c (s +:+ t).
Proof. reflexivity. Qed.

Lemma string_app_assoc s1 s2 s3 : (s1 +:+ s2) +:+ s3 = s1 +:+ (s2 +:+ s3).
Proof.
  induction s1 as [|c s1 IH]; [reflexivity|].
  by rewrite !string_app_cons, IH.
Qed.

(** Two-digit formatting of a number below sixty: its tens digit, then its
    units digit. *)
Lemma format_02d_digits (m : Z) :
  0 ≤ m < 60 → Py.format_02d m = Py.str_int (m `div` 10) +:+ Py.str_int (m `mod` 10).
Proof.
  intros Hm.
  assert (∃ n : nat, m = Z.of_nat n ∧ (n < 60)%nat) as (n & -> & Hn).
  { exists (Z.to_nat m). lia. }
  clear Hm.
  do 60 (destruct n as [|n]; [vm_compute; reflexivity|]).
  lia.
Qed.

(** [int(b)] is [b] without its fractional part. *)
Lemma int_of_float_integer_part (b : Qc) : Label.integer_part (Py.int_of_float b) b.
Proof.
  destruct b as [[n d] Hc].
  unfold Label.integer_part, Py.int_of_float, Qcle, Qclt, Qle, Qlt. simpl.
  rewrite !Z.mul_1_r.
  pose proof (Z.quot_rem' n (Z.pos d)) as Hqr.
  split; intros Hn.
  - assert (0 ≤ n) as Hn' by lia.
    pose proof (Z.rem_bound_pos n (Z.pos d) Hn' (Pos2Z.is_pos d)). lia.
  - assert (n ≤ 0) as Hn' by lia.
    pose proof (Z.rem_bound_pos_neg n (Z.pos d) (Pos2Z.is_pos d) Hn'). lia.
Qed.

(** ** The resolver: labels and duration *)

Section labels.
Import VideoInfoThread.

Lemma size_str_suffix d : size_str d = Label.size_suffix (filesize d).
Proof.
  unfold size_str, Label.size_suffix.
  destruct (filesize d) as [s|]; [|done]. simpl.
  by destruct (s =? 0).
Qed.

Lemma video_quality_str_label d h :
  height d = Some h → video_quality_str d = Label.video h d.
Proof.
  intros Hh. unfold video_quality_str, Label.video, Label.tail, ext_of.
  rewrite Hh, size_str_suffix. simpl.
  destruct (fps d) as [f|]; simpl.
  - destruct (f =? 0) eqn:Hf; simpl.
    + apply Z.eqb_eq in Hf as ->. simpl. by rewrite !string_app_assoc.
    + destruct (30 <? f); by rewrite !string_app_assoc.
  - by rewrite !string_app_assoc.
Qed.

Lemma audio_quality_str_label d b :
  abr d = Some b → audio_quality_str d = Label.audio (Py.int_of_float b) d.
Proof.
  intros Hb. unfold audio_quality_str, Label.audio, Label.tail, ext_of.
  rewrite Hb, size_str_suffix. simpl.
  by rewrite <-(string_app_assoc "kbps" " (").
Qed.

Lemma video_entry_Some d e :
  video_entry d = Some e ↔
  ∃ h, vcodec d ≠ Some "none" ∧ acodec d ≠ Some "none"
       ∧ height d = Some h ∧ h ≠ 0
       ∧ e = (Label.video h d, format_id d, d).
Proof.
  unfold video_entry. split.
  - destruct (usable_video d) eqn:Hu; [|done]. intros [= <-].
    destruct (usable_video_height d Hu) as (h & Hh & Hne).
    exists h. unfold usable_video in Hu.
    apply andb_true_iff in Hu as [Hu _].
    apply andb_true_iff in Hu as [Hv Ha].
    apply not_none_true in Hv, Ha.
    by rewrite (video_quality_str_label d h).
  - intros (h & Hv & Ha & Hh & Hne & ->).
    apply not_none_true in Hv, Ha.
    unfold usable_video. rewrite Hv, Ha, Hh. simpl.
    rewrite (proj2 (Z.eqb_neq h 0)) by done. simpl.
    by rewrite (video_quality_str_label d h).
Qed.

Lemma audio_entry_Some d e :
  audio_entry d = Some e ↔
  ∃ b, acodec d ≠ Some "none" ∧ vcodec d = Some "none"
       ∧ abr d = Some b ∧ b ≠ 0%Qc
       ∧ e = (Label.audio (Py.int_of_float b) d, format_id d, d).
Proof.
  unfold audio_entry. split.
  - destruct (usable_audio d) eqn:Hu; [|done]. intros [= <-].
    destruct (usable_audio_abr d Hu) as (b & Hb & Hne).
    exists b. unfold usable_audio in Hu.
    apply andb_true_iff in Hu as [Hu _].
    apply andb_true_iff in Hu as [_ Hu].
    apply andb_true_iff in Hu as [Ha Hv].
    apply not_none_true in Ha. apply is_none_true in Hv.
    by rewrite (audio_quality_str_label d b).
  - intros (b & Ha & Hv & Hb & Hne & ->).
    assert (Py.truthy_float (Some b) = true) as Ht.
    { simpl. apply negb_true_iff, Z.eqb_neq. intros Hn. apply Hne.
      apply Qc_is_canon. destruct b as [[n dn] Hc]. simpl in *. subst n.
      unfold Qeq. simpl. lia. }
    apply not_none_true in Ha.
    unfold usable_audio. rewrite Ha, Hb, Ht, (proj2 (is_none_true _) Hv).
    unfold not_none at 1. rewrite Hv. simpl.
    by rewrite (audio_quality_str_label d b).
Qed.

Lemma process_duration info label : duration (process info label) = label.
Proof. unfold process. by destruct (foldl _ _ _). Qed.

Lemma process_title info label :
  title (process info label) = default "Unknown Title" (info_title info).
Proof. unfold process. by destruct (foldl _ _ _). Qed.

(** The results [run] emits are the dicts [process] builds, with the label
    of line 88. *)
Lemma run_finished o r :
  run o = finished r ↔
  ∃ info label, o = Returned (Some info)
                ∧ duration_str (info_duration info) = Py.Value label
                ∧ r = process info label.
Proof.
  split.
  - destruct o as [msg|[info|]]; [done| |done]. simpl.
    destruct (duration_str (info_duration info)) as [label|exc] eqn:Hd; [|done].
    intros [= <-]. by exists info, label.
  - intros (info & label & -> & Hd & ->). simpl. by rewrite Hd.
Qed.
End labels.

Section label_claims.
Import VideoInfoThread.

(** C3, as the code has it. The entries of [video_formats] are exactly
    the triples [(label, format_id, d)] of the listed descriptors [d]
    whose codecs are both not ['none'] and whose height [h] is present
    and not zero, with the label ["<h>p"], then ["<f>"] exactly when the
    frame rate [f] is above 30, then [" (<e>)"], then
    [" (~<s div 1MiB>MB)"] exactly when the size [s] is known and not
    zero. The entries of [audio_formats] are exactly the triples of the
    listed descriptors whose [acodec] is not ['none'], whose [vcodec] is
    ['none'] and whose bitrate [b] is present and not zero, with the label
    ["<t>kbps (<e>)"] and the same size suffix, [t] being [b] with its
    fractional part dropped. Descriptors without height, respectively
    without bitrate, have no entry. For the probe result with the two
    sample descriptors the labels are ["720p (mp4)"] and
    ["128kbps (mp3)"]. *)
Theorem labels_as_built (info : RawInfo) (label : string) (e : entry) :
  (e ∈ video_formats (process info label) ↔
     ∃ d h, d ∈ default [] (info_formats info)
            ∧ vcodec d ≠ Some "none" ∧ acodec d ≠ Some "none"
            ∧ height d = Some h ∧ h ≠ 0
            ∧ e = (Label.video h d, format_id d, d))
  ∧ (e ∈ audio_formats (process info label) ↔
       ∃ d b, d ∈ default [] (info_formats info)
              ∧ acodec d ≠ Some "none" ∧ vcodec d = Some "none"
              ∧ abr d = Some b ∧ b ≠ 0%Qc
              ∧ e = (Label.audio (Py.int_of_float b) d, format_id d, d))
  ∧ (∀ b : Qc, Label.integer_part (Py.int_of_float b) b)
  ∧ (∀ id1 id2 : string,
       entry_label <$> video_formats (process (Example.probe id1 id2) "2:05")
         = ["720p (mp4)"]
       ∧ entry_label <$> audio_formats (process (Example.probe id1 id2) "2:05")
           = ["128kbps (mp3)"]).
Proof.
  split; [|split; [|split]].
  - rewrite video_formats_perm, list_elem_of_omap. split.
    + intros (d & Hd & He). apply video_entry_Some in He as (h & He).
      exists d, h. tauto.
    + intros (d & h & Hd & He). exists d. split; [done|].
      apply video_entry_Some. exists h. tauto.
  - rewrite audio_formats_perm, list_elem_of_omap. split.
    + intros (d & Hd & He). apply audio_entry_Some in He as (b & He).
      exists d, b. tauto.
    + intros (d & b & Hd & He). exists d. split; [done|].
      apply audio_entry_Some. exists b. tauto.
  - apply int_of_float_integer_part.
  - intros id1 id2. split; reflexivity.
Qed.

(** C3 as worded fails on the code: a bitrate of 128.75 kbps is labelled
    ["128kbps (mp3)"], where rounding gives ["129kbps (mp3)"]; and a known
    size of 0 bytes adds no size suffix. *)
Lemma labels_as_worded_counterexample :
  (entry_label <$> audio_formats (process (Example.probe_of [Example.fmt_abr_128_75]) "2:05")
     = ["128kbps (mp3)"]
   ∧ Spec.audio_label (Q2Qc (515 # 4)) "mp3" None = "129kbps (mp3)"
   ∧ entry_label <$> audio_formats (process (Example.probe_of [Example.fmt_abr_128_75]) "2:05")
     ≠ [Spec.audio_label (Q2Qc (515 # 4)) "mp3" None])
  ∧ (entry_label <$> video_formats (process (Example.probe_of [Example.fmt_size_0]) "2:05")
       = ["720p (mp4)"]
     ∧ Spec.video_label 720 (Some 30) "mp4" (Some 0) = "720p (mp4) (~0MB)"
     ∧ entry_label <$> video_formats (process (Example.probe_of [Example.fmt_size_0]) "2:05")
       ≠ [Spec.video_label 720 (Some 30) "mp4" (Some 0)]).
Proof.
  split; (split; [vm_compute; reflexivity|]);
    (split; [vm_compute; reflexivity|]); vm_compute; discriminate.
Qed.

(** C4. The claim does not hold of the code for every known duration.
    When the duration is a float other than zero (125.0, say), the format
    code [:02d] of line 88 raises [ValueError]; the exception is caught by
    [run], which emits an error and no result, so no label ["2:05"] is
    produced. *)
Theorem float_duration_fails_resolve (info : RawInfo) (q : Qc) :
  info_duration info = Some (Py.Float q) → q ≠ 0%Qc →
  duration_str (info_duration info)
    = Py.Raise "Unknown format code 'd' for object of type 'float'"
  ∧ run (Returned (Some info))
    = error "Error fetching video info: Unknown format code 'd' for object of type 'float'"
  ∧ ∀ r, run (Returned (Some info)) ≠ finished r.
Proof.
  intros Hd Hq.
  assert (duration_str (info_duration info)
          = Py.Raise "Unknown format code 'd' for object of type 'float'") as Hraise.
  { pose proof (proj2 (truthy_float_nonzero q) Hq) as Ht. simpl in Ht.
    rewrite Hd. unfold duration_str. simpl. by rewrite Ht. }
  split; [done|]. unfold run. rewrite Hraise. split; [done|]. by intros r.
Qed.

(** C4 at the sample probe result with the duration 125.0. *)
Lemma float_duration_fails_resolve_witness :
  duration_str (info_duration Example.probe_float_duration)
    = Py.Raise "Unknown format code 'd' for object of type 'float'"
  ∧ run (Returned (Some Example.probe_float_duration))
    = error "Error fetching video info: Unknown format code 'd' for object of type 'float'"
  ∧ ∀ r, run (Returned (Some Example.probe_float_duration)) ≠ finished r.
Proof.
  apply (float_duration_fails_resolve Example.probe_float_duration (Q2Qc 125));
    [reflexivity|discriminate].
Defined.

(** X21. When the duration is an integer other than zero, the probe
    delivers a result whose duration label is the minutes [d // 60], a
    colon, and the seconds [d % 60] written with exactly two digits, a
    leading zero included; when the duration is absent or zero (integer or
    float), the label is ["Unknown"]. *)
Theorem integer_duration_label (info : RawInfo) :
  (∀ d : Z, info_duration info = Some (Py.Int d) → d ≠ 0 →
     ∃ tens units : Z,
       0 ≤ tens ≤ 5 ∧ 0 ≤ units ≤ 9 ∧ d `mod` 60 = 10 * tens + units
       ∧ run (Returned (Some info))
         = finished
             (process info
                (Py.str_int (d `div` 60) +:+ ":" +:+ Py.str_int tens
                   +:+ Py.str_int units)))
  ∧ (info_duration info = None ∨ info_duration info = Some (Py.Int 0)
     ∨ info_duration info = Some (Py.Float 0%Qc) →
       run (Returned (Some info)) = finished (process info "Unknown")).
Proof.
  unfold run. split.
  - intros d -> Hd.
    pose proof (Z.mod_pos_bound d 60 eq_refl) as Hm.
    exists ((d `mod` 60) `div` 10), ((d `mod` 60) `mod` 10).
    split; [Z.div_mod_to_equations; lia|].
    split; [Z.div_mod_to_equations; lia|].
    split; [Z.div_mod_to_equations; lia|].
    unfold duration_str. simpl.
    rewrite (proj2 (Z.eqb_neq d 0)) by done. simpl.
    by rewrite format_02d_digits.
  - by intros [-> | [-> | ->]].
Qed.

(** X21 at the sample probe result, whose duration is 125 seconds. *)
Lemma integer_duration_label_witness :
  ∃ tens units : Z,
    0 ≤ tens ≤ 5 ∧ 0 ≤ units ≤ 9 ∧ 125 `mod` 60 = 10 * tens + units
    ∧ run (Returned (Some (Example.probe "22" "140")))
      = finished
          (process (Example.probe "22" "140")
             (Py.str_int (125 `div` 60) +:+ ":" +:+ Py.str_int tens
                +:+ Py.str_int units)).
Proof.
  apply (proj1 (integer_duration_label (Example.probe "22" "140")) 125);
    [reflexivity|lia].
Defined.
End label_claims.

(** ** The download thread *)

Section download_thread.
Import DownloadThread.

(** The base name has no ["/"] and is what follows the directory part,
    which is empty or ends in ["/"]. *)
Lemma basename_spec (p : string) :
  ∃ dir, p = dir +:+ Py.basename p
         ∧ Py.has_slash (Py.basename p) = false
         ∧ (dir = "" ∨ Py.ends_with_slash dir = true).
Proof.
  induction p as [|c p (dir & Hp & Hbase & Hdir)].
  { exists "". repeat split; auto. }
  simpl. destruct (Ascii.eqb c "/" || Py.has_slash p) eqn:Hc.
  - exists (String c dir). rewrite string_app_cons, <-Hp.
    split; [done|]. split; [done|]. right.
    destruct Hdir as [-> | Hdir].
    + assert (p = Py.basename p) as Hp' by exact Hp.
      rewrite <-Hp' in Hbase. rewrite Hbase, orb_false_r in Hc.
      simpl. done.
    + simpl. by destruct dir.
  - exists "". split; [done|]. split; [|by left]. simpl. done.
Qed.

Lemma progress_hook_progress d :
  successes (progress_hook d) = [] ∧ failures (progress_hook d) = [].
Proof.
  unfold progress_hook.
  destruct (String.eqb (status d) "downloading"); [done|].
  by destruct (String.eqb (status d) "finished").
Qed.

Lemma hooks_no_terminal calls :
  successes (flat_map progress_hook calls) = []
  ∧ failures (flat_map progress_hook calls) = [].
Proof.
  unfold successes, failures.
  induction calls as [|d calls [IH1 IH2]]; [done|]. simpl.
  rewrite !omap_app, IH1, IH2, !app_nil_r. apply progress_hook_progress.
Qed.

(** C6. For a callback with status ["downloading"] the hook emits exactly
    one progress signal, whose message carries the collaborator's percent
    and speed strings as they are (["N/A"] for a missing one); for a
    callback with status ["finished"] it emits exactly one progress
    signal, whose message carries the base name of the reported path:
    the part after its last ["/"]. *)
Theorem progress_relay (d : progress_dict) :
  (status d = "downloading" →
     progress_hook d
       = [progress ("Downloading... " +:+ default "N/A" (_percent_str d)
                      +:+ " at " +:+ default "N/A" (_speed_str d))]
     ∧ ∀ percent speed,
         _percent_str d = Some percent → _speed_str d = Some speed →
         progress_hook d
           = [progress ("Downloading... " +:+ percent +:+ " at " +:+ speed)])
  ∧ (status d = "finished" →
       ∃ dir base,
         filename d = dir +:+ base
         ∧ Py.has_slash base = false
         ∧ (dir = "" ∨ Py.ends_with_slash dir = true)
         ∧ progress_hook d = [progress ("Download finished: " +:+ base)]).
Proof.
  unfold progress_hook. split.
  - intros ->. simpl. split; [done|]. by intros percent speed -> ->.
  - intros ->. simpl.
    destruct (basename_spec (filename d)) as (dir & Hp & Hbase & Hdir).
    by exists dir, (Py.basename (filename d)).
Qed.

(** C6 at a callback of each kind. *)
Lemma progress_relay_witness :
  progress_hook Example.hook_downloading
    = [progress "Downloading...  42.0% at 1.21MiB/s"]
  ∧ ∃ dir base,
      "/home/user/Downloads/clip.f137.mp4" = dir +:+ base
      ∧ Py.has_slash base = false
      ∧ (dir = "" ∨ Py.ends_with_slash dir = true)
      ∧ progress_hook Example.hook_finished
        = [progress ("Download finished: " +:+ base)].
Proof.
  split.
  - apply (proj1 (progress_relay Example.hook_downloading) eq_refl).
  - apply (proj2 (progress_relay Example.hook_finished) eq_refl).
Defined.

(** C7. When the collaborator's download call returns, the thread emits
    exactly one [finished] signal, with the message
    ["Download completed successfully!"], and no [error] signal; when it
    raises, the thread emits exactly one [error] signal, with the message
    ["Download failed: "] followed by the exception's text, and no
    [finished] signal. No run emits both; the terminal signal comes after
    every progress signal. *)
Theorem terminal_signal (self : t) (calls : list progress_dict) (o : download_outcome) :
  (o = Returned →
     successes (run self calls o).2 = ["Download completed successfully!"]
     ∧ failures (run self calls o).2 = [])
  ∧ (∀ msg, o = Raised msg →
       failures (run self calls o).2 = ["Download failed: " +:+ msg]
       ∧ successes (run self calls o).2 = [])
  ∧ (successes (run self calls o).2 = [] ∨ failures (run self calls o).2 = [])
  ∧ length (successes (run self calls o).2 ++ failures (run self calls o).2) = 1%nat
  ∧ ∃ last, (run self calls o).2 = flat_map progress_hook calls ++ [last]
            ∧ progress_messages [last] = [].
Proof.
  destruct (hooks_no_terminal calls) as [Hs Hf].
  unfold run, successes, failures in *. simpl.
  rewrite !omap_app, Hs, Hf. simpl.
  destruct o as [|msg]; simpl.
  - repeat split; try done; eauto.
  - repeat split; try done; eauto. congruence.
Qed.

(** C7 at a run of two callbacks that ends normally and one that ends
    with an exception. *)
Lemma terminal_signal_witness :
  (successes (run (Build_t "u" "/d" ∅)
                [Example.hook_downloading; Example.hook_finished] Returned).2
     = ["Download completed successfully!"]
   ∧ failures (run (Build_t "u" "/d" ∅)
                 [Example.hook_downloading; Example.hook_finished] Returned).2
     = [])
  ∧ (failures (run (Build_t "u" "/d" ∅)
                 [Example.hook_downloading] (Raised "HTTP Error 403")).2
       = ["Download failed: HTTP Error 403"]
     ∧ successes (run (Build_t "u" "/d" ∅)
                    [Example.hook_downloading] (Raised "HTTP Error 403")).2
       = []).
Proof.
  split.
  - apply (proj1 (terminal_signal (Build_t "u" "/d" ∅)
                    [Example.hook_downloading; Example.hook_finished] Returned)
             eq_refl).
  - apply (proj1 (proj2 (terminal_signal (Build_t "u" "/d" ∅)
                           [Example.hook_downloading] (Raised "HTTP Error 403")))
             "HTTP Error 403" eq_refl).
Defined.
End download_thread.

(** ** The window: the download request *)

Section download_request.
Import YouTubeDownloader.

Local Ltac fresh_key :=
  let Hk := fresh "Hk" in
  intros Hk;
  repeat (apply elem_of_cons in Hk as [Hk|Hk]; [discriminate|]);
  by apply elem_of_nil in Hk.

Lemma lookup_ydl_opts_base_fresh (k : string) :
  k ∉ ["no_warnings"; "extract_flat"; "writesubtitles"; "writeautomaticsub";
        "ignoreerrors"; "ssl_context"; "quiet"] →
  ydl_opts_base !! k = None.
Proof.
  intros Hk. unfold ydl_opts_base.
  repeat (rewrite lookup_insert_ne; [|intros <-; apply Hk; set_solver]).
  apply lookup_empty.
Qed.

(** C5. When [start_download] accepts the request (it starts the download
    thread), the options given to the thread depend on the download type
    alone. Video + audio, with [v] and [a] the format ids of the selected
    rows: [format] is ["v+a/best"] and [merge_output_format] is ["mp4"]
    (no post-processor is set). Audio only, with [a] the format id of the
    selected row: [format] is [a] itself and [postprocessors] is the
    single step [FFmpegExtractAudio] with codec ["mp3"] and quality
    ["192"] (no merge container is set). *)
Theorem start_download_options (path_exists : string → bool) (s s' : t)
    (effs : list effect) :
  start_download path_exists s = (s', effs) →
  start_download_thread ∈ effs →
  ∃ q, download_thread s' = Some q ∧ isRunning q = true
    ∧ effs = [start_download_thread]
    ∧ (radio_video s = true →
       ∃ v a,
         video_formats s !! Z.to_nat (currentRow (video_list s)) = Some v
         ∧ audio_formats s !! Z.to_nat (currentRow (audio_list s)) = Some a
         ∧ DownloadThread.ydl_opts (thread q) !! "format"
           = Some (VStr (entry_id v +:+ "+" +:+ entry_id a +:+ "/best"))
         ∧ DownloadThread.ydl_opts (thread q) !! "merge_output_format"
           = Some (VStr "mp4")
         ∧ DownloadThread.ydl_opts (thread q) !! "postprocessors" = None)
    ∧ (radio_video s = false →
       ∃ a,
         audio_formats s !! Z.to_nat (currentRow (audio_list s)) = Some a
         ∧ DownloadThread.ydl_opts (thread q) !! "format" = Some (VStr (entry_id a))
         ∧ DownloadThread.ydl_opts (thread q) !! "postprocessors"
           = Some (VPostprocessors
                     [{| key := "FFmpegExtractAudio"; preferredcodec := "mp3";
                         preferredquality := "192" |}])
         ∧ DownloadThread.ydl_opts (thread q) !! "merge_output_format" = None).
Proof.
  intros Hsd Hin. unfold start_download, launch in Hsd.
  repeat case_match; simplify_eq/=;
    try (apply list_elem_of_singleton in Hin; discriminate).
  - eexists. split; [done|]. split; [done|]. split; [done|]. split; [|done].
    intros _. eexists _, _. split; [done|]. split; [done|]. simpl.
    rewrite lookup_insert_ne, lookup_insert_eq by done.
    rewrite lookup_insert_eq.
    rewrite !lookup_insert_ne by done.
    split; [done|]. split; [done|].
    apply lookup_ydl_opts_base_fresh. fresh_key.
  - eexists. split; [done|]. split; [done|]. split; [done|]. split; [done|].
    intros _. eexists. split; [done|]. simpl.
    rewrite lookup_insert_ne, lookup_insert_eq by done.
    rewrite lookup_insert_eq.
    rewrite !lookup_insert_ne by done.
    split; [done|]. split; [done|].
    apply lookup_ydl_opts_base_fresh. fresh_key.
Qed.

(** C5 at the sample window, for each download type: the pair
    ["137"] and ["140"], and ["140"] alone. *)
Lemma start_download_options_witness :
  (∃ q, download_thread Example.downloading = Some q
     ∧ DownloadThread.ydl_opts (thread q) !! "format" = Some (VStr "137+140/best")
     ∧ DownloadThread.ydl_opts (thread q) !! "merge_output_format"
       = Some (VStr "mp4"))
  ∧ (∃ q, download_thread Example.downloading_audio = Some q
       ∧ DownloadThread.ydl_opts (thread q) !! "format" = Some (VStr "140")
       ∧ DownloadThread.ydl_opts (thread q) !! "postprocessors"
         = Some (VPostprocessors
                   [{| key := "FFmpegExtractAudio"; preferredcodec := "mp3";
                       preferredquality := "192" |}])).
Proof.
  split.
  - destruct (start_download_options Example.any_path Example.resolved
                Example.downloading [start_download_thread])
      as (q & Hq & _ & _ & Hvideo & _).
    + vm_compute. reflexivity.
    + apply list_elem_of_here.
    + destruct (Hvideo eq_refl) as (v & a & Hv & Ha & Hformat & Hmerge & _).
      vm_compute in Hv, Ha. injection Hv as <-. injection Ha as <-.
      exists q. split; [exact Hq|]. split; [exact Hformat|exact Hmerge].
  - destruct (start_download_options Example.any_path
                (run_events [click_radio false] Example.resolved)
                Example.downloading_audio [start_download_thread])
      as (q & Hq & _ & _ & _ & Haudio).
    + vm_compute. reflexivity.
    + apply list_elem_of_here.
    + destruct (Haudio eq_refl) as (a & Ha & Hformat & Hpost & _).
      vm_compute in Ha. injection Ha as <-.
      exists q. split; [exact Hq|]. split; [exact Hformat|exact Hpost].
Defined.
End download_request.

(** ** The window: reachable states *)

Section session.
Import YouTubeDownloader.

Lemma foldl_addItem (w : QListWidget) (l : list entry) :
  foldl (λ w e, addItem (entry_label e) w) w l
  = {| items := items w ++ (entry_label <$> l); currentRow := currentRow w |}.
Proof.
  revert w. induction l as [|e l IH]; intros [its row]; simpl.
  { by rewrite app_nil_r. }
  rewrite IH. simpl. by rewrite <-app_assoc.
Qed.

Lemma select_clear row : select row clear = clear.
Proof. unfold select. by destruct row. Qed.

Lemma select_items row w : items (select row w) = items w.
Proof. unfold select. by destruct (_ <? _). Qed.

Lemma select_row row w :
  -1 ≤ currentRow w < count w → -1 ≤ currentRow (select row w) < count (select row w).
Proof.
  unfold select. destruct (_ <? _) eqn:Hlt; [|done].
  apply Z.ltb_lt in Hlt. unfold count in *. simpl. lia.
Qed.

Lemma init_consistent downloads : consistent (init downloads).
Proof. unfold consistent. simpl. repeat split; done || lia. Qed.

(** A probe in flight leaves nothing to select: [start_download] answers
    with a warning and changes nothing. *)
Lemma start_download_rejected path_exists s :
  currentRow (video_list s) = -1 → currentRow (audio_list s) = -1 →
  ∃ msg, start_download path_exists s = (s, [warning "Error" msg]).
Proof.
  intros Hv Ha. unfold start_download. rewrite Hv, Ha. simpl.
  destruct (String.eqb _ _); [by eexists|].
  destruct (_ || _); [by eexists|].
  destruct (radio_video s); by eexists.
Qed.

Lemma start_download_cases path_exists s :
  (∃ msg, start_download path_exists s = (s, [warning "Error" msg]))
  ∨ start_download path_exists s = (s, [uncaught "IndexError"])
  ∨ (0 ≤ currentRow (audio_list s)
     ∧ ∃ url save_path opts,
         start_download path_exists s = launch url save_path opts s).
Proof.
  unfold start_download.
  destruct (String.eqb _ _); [left; by eexists|].
  destruct (_ || _); [left; by eexists|].
  destruct (radio_video s).
  - destruct (currentRow (video_list s) <? 0); [left; by eexists|].
    destruct (currentRow (audio_list s) <? 0) eqn:Har; [left; by eexists|].
    apply Z.ltb_ge in Har.
    destruct (video_formats s !! _); [|by right; left].
    destruct (audio_formats s !! _); [|by right; left].
    right; right. split; [done|]. by eexists _, _, _.
  - destruct (currentRow (audio_list s) <? 0) eqn:Har; [left; by eexists|].
    apply Z.ltb_ge in Har.
    destruct (audio_formats s !! _); [|by right; left].
    right; right. split; [done|]. by eexists _, _, _.
Qed.

Lemma dispatch_consistent ev s : consistent s → consistent (dispatch ev s).1.
Proof.
  intros Hs. pose proof Hs as (Hv & Ha & Hvr & Har & Hbtn & Hres & Hdl).
  destruct ev as [text|video|row|row|folder| |path_exists|o|d|o]; simpl.
  - done.
  - done.
  - unfold consistent; simpl. rewrite select_items.
    repeat split; try done; try (apply select_row; done); try tauto.
    destruct Hres as (? & -> & ? & ?); [done|]. by rewrite select_clear.
  - unfold consistent; simpl. rewrite select_items.
    repeat split; try done; try (apply select_row; done); try tauto.
    destruct Hres as (? & ? & -> & ?); [done|]. by rewrite select_clear.
  - unfold browse_folder. destruct (String.eqb folder ""); done.
  - destruct (fetch_btn s) eqn:Hf; [|done].
    unfold fetch_video_info.
    destruct (String.eqb _ _); [done|]. destruct (negb (validate_url _)); [done|].
    unfold consistent; simpl. repeat split; try done; try lia.
    destruct (running (download_thread s)); [|done].
    by specialize (Hdl eq_refl).
  - destruct (download_btn s) eqn:Hd; [|done].
    destruct (start_download_cases path_exists s)
      as [[msg ->] | [-> | (Hrow & url & save_path & opts & ->)]]; [done..|].
    unfold launch, consistent; simpl. repeat split; try done; try tauto.
    all: destruct Hres as (? & ? & Hal & ?); [done|];
      rewrite Hal in Hrow; simpl in Hrow; lia.
  - destruct (running (video_thread s)) eqn:Hr; [|done].
    destruct Hres as (Hf & Hvl & Hal & Hnd); [done|].
    assert (running (stopped (video_thread s)) = false) as Hstop.
    { by destruct (video_thread s). }
    destruct (VideoInfoThread.run o) as [info|msg];
      unfold consistent; simpl; rewrite Hstop.
    + rewrite Hvl, Hal, !foldl_addItem. rewrite Hnd in *. simpl.
      generalize (entry_label <$> VideoInfoThread.video_formats info),
                 (entry_label <$> VideoInfoThread.audio_formats info).
      intros lv la. unfold count.
      destruct lv, la; simpl; repeat split; done || lia.
    + rewrite Hnd in *. repeat split; done || lia.
  - destruct (running (download_thread s)) eqn:Hr; [|done].
    unfold DownloadThread.progress_hook.
    destruct (String.eqb _ "downloading"); [|destruct (String.eqb _ "finished")];
      done.
  - destruct (download_thread s) as [[th r]|] eqn:Hth; [|done]. simpl.
    destruct r; [|done].
    simpl in *.
    assert (running (video_thread s) = false) as Hnv.
    { destruct (running (video_thread s)); [|done].
      by destruct (Hres eq_refl) as (_ & _ & _ & ?). }
    destruct o; unfold consistent; simpl; rewrite Hnv;
      repeat split; done || lia.
Qed.

Lemma run_events_consistent evs s : consistent s → consistent (run_events evs s).
Proof.
  revert s. induction evs as [|ev evs IH]; intros s Hs; [done|].
  simpl. by apply IH, dispatch_consistent.
Qed.

Lemma reachable_consistent s : reachable s → consistent s.
Proof.
  intros (downloads & evs & ->). apply run_events_consistent, init_consistent.
Qed.

(** While a download runs, no event but its end changes the stored
    formats or stops it. *)
Lemma dispatch_during_download ev s :
  consistent s → running (download_thread s) = true → not_download_end ev →
  running (download_thread (dispatch ev s).1) = true
  ∧ video_formats (dispatch ev s).1 = video_formats s
  ∧ audio_formats (dispatch ev s).1 = audio_formats s.
Proof.
  intros (_ & _ & _ & _ & Hbtn & Hres & Hdl) Hr Hev.
  specialize (Hdl Hr). rewrite Hr in Hbtn, Hres. simpl in Hbtn.
  assert (running (video_thread s) = false) as Hnv.
  { destruct (running (video_thread s)); [|done].
    by destruct (Hres eq_refl) as (_ & _ & _ & ?). }
  destruct ev as [text|video|row|row|folder| |path_exists|o|d|o]; simpl;
    rewrite ?Hdl, ?Hbtn, ?Hnv, ?Hr; try done.
  - unfold browse_folder. by destruct (String.eqb folder "").
  - unfold DownloadThread.progress_hook.
    destruct (String.eqb _ "downloading"); [|destruct (String.eqb _ "finished")];
      done.
Qed.

Lemma run_events_during_download evs s :
  consistent s → running (download_thread s) = true →
  Forall not_download_end evs →
  consistent (run_events evs s)
  ∧ running (download_thread (run_events evs s)) = true
  ∧ video_formats (run_events evs s) = video_formats s
  ∧ audio_formats (run_events evs s) = audio_formats s.
Proof.
  revert s. induction evs as [|ev evs IH]; intros s Hs Hr Hevs; [done|].
  apply Forall_cons in Hevs as [Hev Hevs]. simpl.
  destruct (dispatch_during_download ev s Hs Hr Hev) as (Hr' & Hv' & Ha').
  destruct (IH (dispatch ev s).1) as (? & ? & ? & ?);
    [by apply dispatch_consistent|done..|].
  split; [done|]. split; [done|]. split; congruence.
Qed.

(** An accepted click on the download button leaves the stored formats
    as they are and starts the download. *)
Lemma click_download_accepted path_exists s s' :
  dispatch (click_download path_exists) s = (s', [start_download_thread]) →
  running (download_thread s') = true
  ∧ video_formats s' = video_formats s
  ∧ audio_formats s' = audio_formats s.
Proof.
  simpl. destruct (download_btn s); [|done].
  destruct (start_download_cases path_exists s)
    as [[msg ->] | [-> | (_ & url & save_path & opts & ->)]]; [done..|].
  by intros [= <-].
Qed.

(** C8, as the code has it. [start_download] makes no test for an
    operation in flight. In every window the program can be in while a
    probe runs, the lists are empty, so a download request is answered at
    once with a validation warning: no thread is started and the window
    is unchanged. In every window the program can be in while a download
    runs, the download button is disabled: a click on it reaches no slot,
    so no thread is started and the window is unchanged, and no
    validation failure is shown. *)
Theorem download_request_while_busy (s : t) (path_exists : string → bool) :
  reachable s →
  (running (video_thread s) = true →
     ∃ msg, start_download path_exists s = (s, [warning "Error" msg])
            ∧ dispatch (click_download path_exists) s = (s, [warning "Error" msg]))
  ∧ (running (download_thread s) = true →
       download_btn s = false
       ∧ dispatch (click_download path_exists) s = (s, [])).
Proof.
  intros (_ & _ & _ & _ & Hbtn & Hres & _)%reachable_consistent. split.
  - intros Hr. destruct (Hres Hr) as (_ & Hvl & Hal & Hnd).
    destruct (start_download_rejected path_exists s) as [msg Hmsg].
    { by rewrite Hvl. }
    { by rewrite Hal. }
    exists msg. split; [done|]. simpl. by rewrite Hbtn, Hnd.
  - intros Hr. rewrite Hr in Hbtn. simpl in Hbtn. split; [done|].
    simpl. by rewrite Hbtn.
Qed.

(** C8 at the sample window while the probe runs and while the download
    runs. *)
Lemma download_request_while_busy_witness :
  (∃ msg, start_download Example.any_path Example.resolving
            = (Example.resolving, [warning "Error" msg])
          ∧ dispatch (click_download Example.any_path) Example.resolving
            = (Example.resolving, [warning "Error" msg]))
  ∧ (download_btn Example.downloading = false
     ∧ dispatch (click_download Example.any_path) Example.downloading
       = (Example.downloading, [])).
Proof.
  split.
  - apply (download_request_while_busy Example.resolving Example.any_path).
    + exists "/home/user/Downloads",
        [edit_url "https://www.youtube.com/watch?v=dQw4w9WgXcQ"; click_fetch].
      reflexivity.
    + reflexivity.
  - apply (download_request_while_busy Example.downloading Example.any_path).
    + exists "/home/user/Downloads",
        [edit_url "https://www.youtube.com/watch?v=dQw4w9WgXcQ"; click_fetch;
         video_info_signal
           (VideoInfoThread.Returned (Some (Example.probe "137" "140")));
         click_download Example.any_path].
      reflexivity.
    + reflexivity.
Defined.

(** C8 as worded fails on the code: while a download runs, a click on the
    download button shows no validation failure (it reaches no slot), and
    [start_download] itself, called in that window, starts a second
    download thread. *)
Lemma download_request_while_busy_counterexample :
  reachable Example.downloading
  ∧ running (download_thread Example.downloading) = true
  ∧ dispatch (click_download Example.any_path) Example.downloading
    = (Example.downloading, [])
  ∧ (start_download Example.any_path Example.downloading).2
    = [start_download_thread].
Proof.
  split.
  { exists "/home/user/Downloads",
      [edit_url "https://www.youtube.com/watch?v=dQw4w9WgXcQ"; click_fetch;
       video_info_signal
         (VideoInfoThread.Returned (Some (Example.probe "137" "140")));
       click_download Example.any_path].
    reflexivity. }
  split; [reflexivity|]. split; vm_compute; reflexivity.
Qed.

(** C9. When a download that was accepted in a window the program can be
    in ends with a failure, whatever happened in between, the error slot
    shows the failure once and the window holds the formats it held
    before the download started: [video_formats], [audio_formats] and the
    rows of both lists are the same, no thread runs, and both buttons are
    enabled again. [on_download_error] itself touches neither the stored
    formats nor the lists. *)
Theorem failed_download_keeps_formats (s0 s1 : t) (path_exists : string → bool)
    (evs : list event) (msg : string) :
  reachable s0 →
  dispatch (click_download path_exists) s0 = (s1, [start_download_thread]) →
  Forall not_download_end evs →
  (∃ s3,
     dispatch (download_end (DownloadThread.Raised msg)) (run_events evs s1)
       = (s3, [critical "Download Error" ("Download failed: " +:+ msg)])
     ∧ video_formats s3 = video_formats s0
     ∧ audio_formats s3 = audio_formats s0
     ∧ items (video_list s3) = items (video_list s0)
     ∧ items (audio_list s3) = items (audio_list s0)
     ∧ running (download_thread s3) = false
     ∧ running (video_thread s3) = false
     ∧ fetch_btn s3 = true ∧ download_btn s3 = true)
  ∧ (∀ s error_msg,
       video_formats (on_download_error error_msg s).1 = video_formats s
       ∧ audio_formats (on_download_error error_msg s).1 = audio_formats s
       ∧ video_list (on_download_error error_msg s).1 = video_list s
       ∧ audio_list (on_download_error error_msg s).1 = audio_list s).
Proof.
  intros Hreach Hclick Hevs. split; [|done].
  pose proof (reachable_consistent s0 Hreach) as Hs0.
  pose proof (dispatch_consistent (click_download path_exists) s0 Hs0) as Hs1.
  rewrite Hclick in Hs1. simpl in Hs1.
  destruct (click_download_accepted _ _ _ Hclick) as (Hr1 & Hv1 & Ha1).
  destruct (run_events_during_download evs s1 Hs1 Hr1 Hevs)
    as (Hs2 & Hr2 & Hv2 & Ha2).
  pose proof (dispatch_consistent
                (download_end (DownloadThread.Raised msg)) _ Hs2) as Hs3.
  destruct Hs2 as (_ & _ & _ & _ & _ & Hres2 & _).
  assert (running (video_thread (run_events evs s1)) = false) as Hnv.
  { destruct (running (video_thread _)); [|done].
    destruct (Hres2 eq_refl) as (_ & _ & _ & ?). congruence. }
  revert Hs3. simpl.
  destruct (download_thread (run_events evs s1)) as [[th r]|]; [|done].
  simpl in Hr2. subst r. simpl.
  intros (Hi3 & Hj3 & _). simpl in Hi3, Hj3.
  destruct Hs0 as (Hi0 & Hj0 & _).
  eexists. split; [done|]. simpl.
  rewrite Hi3, Hj3, Hi0, Hj0, Hv2, Ha2, Hv1, Ha1, Hnv. done.
Qed.

(** C9 at the sample window: the download of the selected pair is
    accepted, reports progress twice while the user clicks a row, and
    fails. *)
Lemma failed_download_keeps_formats_witness :
  ∃ s3,
    dispatch (download_end (DownloadThread.Raised "HTTP Error 403"))
      (run_events [download_hook Example.hook_downloading; select_video 0;
                   download_hook Example.hook_finished] Example.downloading)
      = (s3, [critical "Download Error" "Download failed: HTTP Error 403"])
    ∧ video_formats s3 = video_formats Example.resolved
    ∧ audio_formats s3 = audio_formats Example.resolved
    ∧ items (video_list s3) = items (video_list Example.resolved)
    ∧ items (audio_list s3) = items (audio_list Example.resolved)
    ∧ running (download_thread s3) = false
    ∧ running (video_thread s3) = false
    ∧ fetch_btn s3 = true ∧ download_btn s3 = true.
Proof.
  apply (failed_download_keeps_formats Example.resolved Example.downloading
           Example.any_path
           [download_hook Example.hook_downloading; select_video 0;
            download_hook Example.hook_finished]
           "HTTP Error 403").
  - exists "/home/user/Downloads",
      [edit_url "https://www.youtube.com/watch?v=dQw4w9WgXcQ"; click_fetch;
       video_info_signal
         (VideoInfoThread.Returned (Some (Example.probe "137" "140")))].
    reflexivity.
  - vm_compute. reflexivity.
  - repeat constructor.
Defined.
End session.

(** * Further properties *)

(** ** URL validation and text input *)

Section url.
Import YouTubeDownloader.

Local Ltac in_list :=
  repeat first [apply list_elem_of_here | apply list_elem_of_further].

Lemma strip_prefix_app p s : Py.strip_prefix p (p +:+ s) = Some s.
Proof.
  induction p as [|c p IH]; [done|].
  rewrite string_app_cons. simpl. by rewrite Ascii.eqb_refl.
Qed.

Lemma strip_prefix_Some p s r : Py.strip_prefix p s = Some r → s = p +:+ r.
Proof.
  revert s. induction p as [|c p IH]; intros s; simpl.
  { by intros [= ->]. }
  destruct s as [|b s]; [done|].
  destruct (Ascii.eqb c b) eqn:Hcb; [|done].
  apply Ascii.eqb_eq in Hcb as ->. intros Hr.
  by rewrite string_app_cons, <-(IH s Hr).
Qed.

Lemma match_pattern_shaped host_path url :
  match_pattern host_path url = true →
  ∃ scheme www c rest,
    scheme ∈ ["http://"; "https://"] ∧ www ∈ [""; "www."]
    ∧ id_char c = true
    ∧ url = scheme +:+ www +:+ host_path +:+ String c rest.
Proof.
  unfold match_pattern. intros Hm.
  assert (∃ scheme r, scheme ∈ ["http://"; "https://"] ∧ url = scheme +:+ r
    ∧ match Py.strip_prefix host_path (default r (Py.strip_prefix "www." r)) with
      | Some (String c _) => id_char c
      | _ => false
      end = true) as (scheme & r & Hscheme & -> & Hr).
  { destruct (Py.strip_prefix "https://" url) as [r|] eqn:Hs.
    - exists "https://", r. split; [in_list|].
      split; [by apply strip_prefix_Some|done].
    - destruct (Py.strip_prefix "http://" url) as [r|] eqn:Hs'; [|done].
      exists "http://", r. split; [in_list|].
      split; [by apply strip_prefix_Some|done]. }
  clear Hm.
  assert (∃ www r', www ∈ [""; "www."] ∧ r = www +:+ r'
    ∧ default r (Py.strip_prefix "www." r) = r') as (www & r' & Hwww & -> & Hr').
  { destruct (Py.strip_prefix "www." r) as [r'|] eqn:Hw.
    - exists "www.", r'. split; [in_list|].
      split; [by apply strip_prefix_Some|done].
    - exists "", r. split; [in_list|done]. }
  rewrite Hr' in Hr.
  destruct (Py.strip_prefix host_path r') as [[|c rest]|] eqn:Hh; [done| |done].
  apply strip_prefix_Some in Hh as ->.
  by exists scheme, www, c, rest.
Qed.

(** X1. [validate_url] accepts exactly the texts that start with
    [http://] or [https://], then optionally [www.], then one of the four
    host-and-path prefixes, then at least one character of [[\w-]];
    whatever follows that character is not looked at. *)
Theorem validate_url_shaped (url : string) :
  validate_url url = true ↔ Url.shaped url.
Proof.
  unfold validate_url, Url.shaped. split.
  - intros (p & Hp & Hm)%existsb_exists.
    apply list_elem_of_In in Hp.
    destruct (match_pattern_shaped p url Hm) as (scheme & www & c & rest & H).
    exists scheme, www, p, c, rest. tauto.
  - intros (scheme & www & p & c & rest & Hscheme & Hwww & Hp & Hc & ->).
    unfold youtube_patterns in *.
    repeat (apply elem_of_cons in Hscheme as [->|Hscheme]);
      [..|by apply elem_of_nil in Hscheme];
    (repeat (apply elem_of_cons in Hwww as [->|Hwww]);
      [..|by apply elem_of_nil in Hwww]);
    (repeat (apply elem_of_cons in Hp as [->|Hp]);
      [..|by apply elem_of_nil in Hp]);
    cbv [String.append]; cbn -[id_char]; rewrite Hc; reflexivity.
Qed.
End url.

Section text_input.
Import YouTubeDownloader.

Lemma all_space_lstrip s : Text.all_space (Py.lstrip s) = Text.all_space s.
Proof.
  induction s as [|c s IH]; [done|]. simpl.
  destruct (Py.isspace c) eqn:Hc; [done|]. simpl. by rewrite Hc.
Qed.

Lemma rstrip_empty s : Py.rstrip s = "" ↔ Text.all_space s = true.
Proof.
  induction s as [|c s IH]; [done|]. simpl.
  destruct (Py.rstrip s) as [|b r].
  - destruct (Py.isspace c); simpl; [|done].
    split; [intros _; by apply IH|done].
  - split; [done|]. intros [_ Hs]%andb_true_iff. by apply IH in Hs.
Qed.

Lemma strip_empty s : Py.strip s = "" ↔ Text.all_space s = true.
Proof. unfold Py.strip. by rewrite rstrip_empty, all_space_lstrip. Qed.

(** X2. [fetch_video_info] starts the probe exactly when the URL field,
    stripped of surrounding white space, is a valid URL: the thread gets
    the stripped URL and the base options, and the stored formats and both
    lists are emptied at once, before any result arrives. Otherwise it
    shows one warning and leaves the window as it is; a field of white
    space only counts as empty. *)
Theorem fetch_video_info_outcomes (s : t) :
  (validate_url (Py.strip (url_entry s)) = true →
     ∃ s', fetch_video_info s = (s', [start_video_thread])
       ∧ video_thread s'
         = Some {| thread := (Py.strip (url_entry s), ydl_opts_base);
                   isRunning := true |}
       ∧ video_formats s' = [] ∧ audio_formats s' = []
       ∧ video_list s' = clear ∧ audio_list s' = clear
       ∧ fetch_btn s' = false)
  ∧ (validate_url (Py.strip (url_entry s)) = false →
       ∃ msg, fetch_video_info s = (s, [warning "Error" msg]))
  ∧ (Text.all_space (url_entry s) = true →
       fetch_video_info s = (s, [warning "Error" "Please enter a YouTube URL"])).
Proof.
  unfold fetch_video_info. split; [|split].
  - intros Hv. rewrite Hv. simpl.
    destruct (String.eqb _ "") eqn:He.
    { apply String.eqb_eq in He. by rewrite He in Hv. }
    eexists. split; [done|]. done.
  - intros Hv. rewrite Hv. simpl. destruct (String.eqb _ ""); by eexists.
  - intros Hs. apply strip_empty in Hs. by rewrite Hs.
Qed.

(** The same at sample windows and inputs. *)
Lemma fetch_video_info_outcomes_witness :
  (∃ s', fetch_video_info
           (run_events [edit_url "  https://youtu.be/dQw4w9WgXcQ "] (init "/d"))
         = (s', [start_video_thread])
     ∧ video_thread s'
       = Some {| thread := ("https://youtu.be/dQw4w9WgXcQ", ydl_opts_base);
                 isRunning := true |}
     ∧ video_formats s' = [] ∧ audio_formats s' = []
     ∧ video_list s' = clear ∧ audio_list s' = clear
     ∧ fetch_btn s' = false)
  ∧ (∃ msg, fetch_video_info (run_events [edit_url "youtube.com/watch?v=x"] (init "/d"))
            = (run_events [edit_url "youtube.com/watch?v=x"] (init "/d"),
               [warning "Error" msg]))
  ∧ fetch_video_info (run_events [edit_url "   "] (init "/d"))
    = (run_events [edit_url "   "] (init "/d"),
       [warning "Error" "Please enter a YouTube URL"]).
Proof.
  split; [|split].
  - apply (proj1 (fetch_video_info_outcomes
                    (run_events [edit_url "  https://youtu.be/dQw4w9WgXcQ "] (init "/d")))).
    reflexivity.
  - apply (proj1 (proj2 (fetch_video_info_outcomes
                    (run_events [edit_url "youtube.com/watch?v=x"] (init "/d"))))).
    reflexivity.
  - apply (proj2 (proj2 (fetch_video_info_outcomes
                    (run_events [edit_url "   "] (init "/d"))))).
    reflexivity.
Defined.
End text_input.

(** ** The window: what every reachable state keeps *)

Section window_invariants.
Import YouTubeDownloader.

Lemma init_tracking downloads : Window.tracking (init downloads).
Proof. unfold Window.tracking. simpl. done. Qed.

Lemma dispatch_tracking ev s :
  consistent s → Window.tracking s → Window.tracking (dispatch ev s).1.
Proof.
  intros (_ & _ & _ & Har & Hbtn & Hres & _) Ht.
  pose proof Ht as (Hf & Hsv & Hsd).
  destruct ev as [text|video|row|row|folder| |path_exists|o|d|o]; simpl;
    try done.
  - unfold browse_folder. by destruct (String.eqb folder "").
  - destruct (fetch_btn s) eqn:Hfb; [|done].
    symmetry in Hf. apply negb_true_iff, orb_false_iff in Hf as [Hnv Hnd].
    unfold fetch_video_info.
    destruct (String.eqb _ _); [done|]. destruct (negb (validate_url _)); [done|].
    unfold Window.tracking. simpl. rewrite Hnd. done.
  - destruct (download_btn s); [|done].
    destruct (start_download_cases path_exists s)
      as [[msg ->] | [-> | (Hrow & url & save_path & opts & ->)]]; [done..|].
    assert (running (video_thread s) = false) as Hnv.
    { destruct (running (video_thread s)); [|done].
      destruct (Hres eq_refl) as (_ & _ & Hal & _).
      rewrite Hal in Hrow. simpl in Hrow. lia. }
    unfold launch, Window.tracking. simpl. rewrite Hnv. done.
  - destruct (running (video_thread s)) eqn:Hr; [|done].
    destruct (Hres eq_refl) as (_ & _ & _ & Hnd).
    assert (running (stopped (video_thread s)) = false) as Hstop.
    { by destruct (video_thread s). }
    destruct (VideoInfoThread.run o) as [info|msg];
      unfold Window.tracking; simpl; rewrite Hstop, Hnd; done.
  - destruct (running (download_thread s)) eqn:Hr; [|done].
    assert (running (video_thread s) = false) as Hnv.
    { destruct (running (video_thread s)); [|done].
      by destruct (Hres eq_refl) as (_ & _ & _ & ?). }
    unfold DownloadThread.progress_hook.
    destruct (String.eqb _ "downloading"); [|destruct (String.eqb _ "finished")];
      [| |done];
      unfold Window.tracking; simpl; rewrite Hnv, Hr;
      (split; [by rewrite Hf, Hnv|split; [done|exact Hsd]]).
  - destruct (download_thread s) as [[th r]|] eqn:Hth; [|done]. simpl.
    destruct r; [|done]. simpl in *.
    assert (running (video_thread s) = false) as Hnv.
    { destruct (running (video_thread s)); [|done].
      by destruct (Hres eq_refl) as (_ & _ & _ & ?). }
    destruct o; unfold Window.tracking; simpl; rewrite Hnv; done.
Qed.

Lemma run_events_tracking evs s :
  consistent s → Window.tracking s → Window.tracking (run_events evs s).
Proof.
  revert s. induction evs as [|ev evs IH]; intros s Hs Ht; [done|].
  simpl. apply IH; [by apply dispatch_consistent|by apply dispatch_tracking].
Qed.

(** X3. Whatever the user and the threads do, a probe and a download
    never run at the same time. *)
Theorem probe_and_download_exclude (downloads : string) (evs : list event) :
  running (video_thread (run_events evs (init downloads)))
  && running (download_thread (run_events evs (init downloads))) = false.
Proof.
  pose proof (run_events_consistent evs _ (init_consistent downloads))
    as (_ & _ & _ & _ & _ & Hres & _).
  destruct (running (video_thread _)); [|done].
  by destruct (Hres eq_refl) as (_ & _ & _ & ->).
Qed.

(** X4. In every window the program can be in, the download button is
    enabled exactly when no download runs and the fetch button exactly when
    neither a probe nor a download runs: no sequence of events leaves a
    button disabled with nothing running. *)
Theorem buttons_follow_threads (downloads : string) (evs : list event) :
  download_btn (run_events evs (init downloads))
    = negb (running (download_thread (run_events evs (init downloads))))
  ∧ fetch_btn (run_events evs (init downloads))
    = negb (running (video_thread (run_events evs (init downloads)))
            || running (download_thread (run_events evs (init downloads)))).
Proof.
  pose proof (run_events_consistent evs _ (init_consistent downloads))
    as (_ & _ & _ & _ & Hbtn & _).
  pose proof (run_events_tracking evs _ (init_consistent downloads)
                (init_tracking downloads)) as (Hf & _).
  done.
Qed.

(** X5. In every window the program can be in, each list widget shows
    the labels of the stored formats, row for row, and its current row is
    [-1] or the index of a stored format. *)
Theorem lists_show_stored_formats (downloads : string) (evs : list event) :
  items (video_list (run_events evs (init downloads)))
    = entry_label <$> video_formats (run_events evs (init downloads))
  ∧ items (audio_list (run_events evs (init downloads)))
    = entry_label <$> audio_formats (run_events evs (init downloads))
  ∧ -1 ≤ currentRow (video_list (run_events evs (init downloads)))
       < Z.of_nat (length (video_formats (run_events evs (init downloads))))
  ∧ -1 ≤ currentRow (audio_list (run_events evs (init downloads)))
       < Z.of_nat (length (audio_formats (run_events evs (init downloads)))).
Proof.
  pose proof (run_events_consistent evs _ (init_consistent downloads))
    as (Hv & Ha & Hvr & Har & _).
  unfold count in *. rewrite Hv, Ha, !length_fmap in *. done.
Qed.

Lemma start_download_not_ready path_exists s :
  ¬ Window.ready path_exists s →
  ∃ msg, start_download path_exists s = (s, [warning "Error" msg]).
Proof.
  unfold Window.ready, start_download. intros Hn.
  destruct (String.eqb _ "") eqn:Hu; [by eexists|]. apply String.eqb_neq in Hu.
  destruct (String.eqb (Py.strip (save_entry s)) "") eqn:Hs; [by eexists|].
  apply String.eqb_neq in Hs.
  destruct (path_exists _) eqn:Hp; [|by eexists]. simpl.
  destruct (radio_video s).
  - destruct (_ <? 0) eqn:Hv; [by eexists|]. apply Z.ltb_ge in Hv.
    destruct (currentRow (audio_list s) <? 0) eqn:Ha; [by eexists|].
    apply Z.ltb_ge in Ha. by destruct Hn.
  - destruct (currentRow (audio_list s) <? 0) eqn:Ha; [by eexists|].
    apply Z.ltb_ge in Ha. by destruct Hn.
Qed.

Lemma start_download_ready path_exists s :
  consistent s → Window.ready path_exists s →
  ∃ s', start_download path_exists s = (s', [start_download_thread]).
Proof.
  intros (Hv & Ha & Hvr & Har & _) (Hu & Hs & Hp & Hvrow & Harow).
  unfold count in *. rewrite Hv, Ha, !length_fmap in *.
  unfold start_download.
  rewrite (proj2 (String.eqb_neq _ _) Hu), (proj2 (String.eqb_neq _ _) Hs), Hp.
  simpl. rewrite (proj2 (Z.ltb_ge _ _) Harow).
  destruct (lookup_lt_is_Some_2 (audio_formats s)
              (Z.to_nat (currentRow (audio_list s)))) as [a Hla]; [lia|].
  rewrite Hla.
  destruct (radio_video s).
  - specialize (Hvrow eq_refl). rewrite (proj2 (Z.ltb_ge _ _) Hvrow).
    destruct (lookup_lt_is_Some_2 (video_formats s)
                (Z.to_nat (currentRow (video_list s)))) as [v Hlv]; [lia|].
    rewrite Hlv. unfold launch. by eexists.
  - unfold launch. by eexists.
Qed.

(** X6. In every window the program can be in, [start_download] starts
    the download exactly when its checks pass (a URL and an existing save
    location are given, and the rows the download type needs are
    selected); otherwise it shows one warning and changes nothing. It
    never indexes a format list out of range. *)
Theorem start_download_accepts_iff_ready (downloads : string) (evs : list event)
    (path_exists : string → bool) :
  (Window.ready path_exists (run_events evs (init downloads)) →
     ∃ s', start_download path_exists (run_events evs (init downloads))
           = (s', [start_download_thread]))
  ∧ (¬ Window.ready path_exists (run_events evs (init downloads)) →
       ∃ msg, start_download path_exists (run_events evs (init downloads))
              = (run_events evs (init downloads), [warning "Error" msg])).
Proof.
  split.
  - apply start_download_ready, run_events_consistent, init_consistent.
  - apply start_download_not_ready.
Qed.

(** X7. While no audio format is stored (the probe result listed no
    usable audio-only descriptor), every download request is rejected with
    a warning, also for the video type. *)
Theorem no_audio_format_no_download (downloads : string) (evs : list event)
    (path_exists : string → bool) :
  audio_formats (run_events evs (init downloads)) = [] →
  ∃ msg, start_download path_exists (run_events evs (init downloads))
         = (run_events evs (init downloads), [warning "Error" msg]).
Proof.
  intros Hnil. apply start_download_not_ready.
  pose proof (run_events_consistent evs _ (init_consistent downloads))
    as (_ & Ha & _ & Har & _).
  unfold count in Har. rewrite Ha, Hnil in Har. simpl in Har.
  intros (_ & _ & _ & _ & Hrow). lia.
Qed.

(** The same at sample windows and inputs. *)
Lemma start_download_accepts_iff_ready_witness :
  (∃ s', start_download Example.any_path Example.resolved
         = (s', [start_download_thread]))
  ∧ (∃ msg, start_download Example.any_path Example.resolving
            = (Example.resolving, [warning "Error" msg])).
Proof.
  split.
  - apply (proj1 (start_download_accepts_iff_ready "/home/user/Downloads"
             [edit_url "https://www.youtube.com/watch?v=dQw4w9WgXcQ"; click_fetch;
              video_info_signal
                (VideoInfoThread.Returned (Some (Example.probe "137" "140")))]
             Example.any_path)).
    unfold Window.ready. vm_compute. repeat split; discriminate.
  - apply (proj2 (start_download_accepts_iff_ready "/home/user/Downloads"
             [edit_url "https://www.youtube.com/watch?v=dQw4w9WgXcQ"; click_fetch]
             Example.any_path)).
    unfold Window.ready. vm_compute. intros (_ & _ & _ & _ & Hrow). by apply Hrow.
Defined.

(** The same at sample windows and inputs. *)
Lemma no_audio_format_no_download_witness :
  ∃ msg,
    start_download Example.any_path
      (run_events
         [edit_url "https://www.youtube.com/watch?v=dQw4w9WgXcQ"; click_fetch;
          video_info_signal
            (VideoInfoThread.Returned
               (Some (Example.probe_of [Example.fmt_720p "22"])))]
         (init "/home/user/Downloads"))
    = (run_events
         [edit_url "https://www.youtube.com/watch?v=dQw4w9WgXcQ"; click_fetch;
          video_info_signal
            (VideoInfoThread.Returned
               (Some (Example.probe_of [Example.fmt_720p "22"])))]
         (init "/home/user/Downloads"),
       [warning "Error" msg]).
Proof.
  apply (no_audio_format_no_download "/home/user/Downloads"
           [edit_url "https://www.youtube.com/watch?v=dQw4w9WgXcQ"; click_fetch;
            video_info_signal
              (VideoInfoThread.Returned
                 (Some (Example.probe_of [Example.fmt_720p "22"])))]
           Example.any_path).
  reflexivity.
Defined.

Lemma sorted_head_greatest {A} (R : A → A → Prop) x l :
  StronglySorted R (x :: l) → Forall (R x) l.
Proof. by intros [_ ?]%StronglySorted_inv. Qed.

(** X8. When a probe delivers a result (its duration label is computed
    without an exception), the stored formats become those
    of the result and nothing else, the lists show their labels, the first
    row of each non-empty list is selected, and that row carries the
    greatest height, respectively bitrate; both buttons are enabled and the
    title and duration are logged. *)
Theorem probe_result_replaces_formats (downloads : string) (evs : list event)
    (info : RawInfo) (label : string) :
  running (video_thread (run_events evs (init downloads))) = true →
  VideoInfoThread.duration_str (info_duration info) = Py.Value label →
  ∃ s',
    dispatch (video_info_signal (VideoInfoThread.Returned (Some info)))
      (run_events evs (init downloads)) = (s', [])
    ∧ video_formats s' = VideoInfoThread.video_formats (VideoInfoThread.process info label)
    ∧ audio_formats s' = VideoInfoThread.audio_formats (VideoInfoThread.process info label)
    ∧ items (video_list s') = entry_label <$> video_formats s'
    ∧ items (audio_list s') = entry_label <$> audio_formats s'
    ∧ currentRow (video_list s') = (if video_formats s' is [] then -1 else 0)
    ∧ currentRow (audio_list s') = (if audio_formats s' is [] then -1 else 0)
    ∧ (∀ best rest, video_formats s' = best :: rest →
         Forall (λ e, VideoInfoThread.height_key e ≤ VideoInfoThread.height_key best) rest)
    ∧ (∀ best rest, audio_formats s' = best :: rest →
         Forall (λ e, (VideoInfoThread.abr_key e ≤ VideoInfoThread.abr_key best)%Qc) rest)
    ∧ fetch_btn s' = true ∧ download_btn s' = true
    ∧ running (video_thread s') = false
    ∧ log_text s'
      = log_text (run_events evs (init downloads))
        ++ ["Title: " +:+ default "Unknown Title" (info_title info);
            "Duration: " +:+ label].
Proof.
  intros Hr Hlabel.
  pose proof (run_events_consistent evs _ (init_consistent downloads))
    as (_ & _ & _ & _ & _ & Hres & _).
  destruct (Hres Hr) as (_ & Hvl & Hal & _).
  simpl. rewrite Hr, Hlabel. simpl. eexists. split; [done|]. simpl.
  rewrite Hvl, Hal, !foldl_addItem. simpl.
  split; [done|]. split; [done|].
  assert (running (stopped (video_thread (run_events evs (init downloads)))) = false)
    as Hstop by (by destruct (video_thread _)).
  rewrite process_duration, process_title.
  pose proof (video_sorted info label) as Hsv.
  pose proof (audio_sorted info label) as Hsa.
  destruct (VideoInfoThread.video_formats (VideoInfoThread.process info label)) as [|v vs];
    destruct (VideoInfoThread.audio_formats (VideoInfoThread.process info label)) as [|a as_];
    simpl; repeat split; try done.
  all: intros best rest [= <- <-];
    first [exact (sorted_head_greatest _ _ _ Hsv)
          |exact (sorted_head_greatest _ _ _ Hsa)].
Qed.

(** The same at sample windows and inputs. *)
Lemma probe_result_replaces_formats_witness :
  ∃ s',
    dispatch (video_info_signal
                (VideoInfoThread.Returned (Some (Example.probe "137" "140"))))
      Example.resolving = (s', [])
    ∧ video_formats s'
      = VideoInfoThread.video_formats (VideoInfoThread.process (Example.probe "137" "140") "2:05")
    ∧ audio_formats s'
      = VideoInfoThread.audio_formats (VideoInfoThread.process (Example.probe "137" "140") "2:05")
    ∧ items (video_list s') = entry_label <$> video_formats s'
    ∧ items (audio_list s') = entry_label <$> audio_formats s'
    ∧ currentRow (video_list s') = (if video_formats s' is [] then -1 else 0)
    ∧ currentRow (audio_list s') = (if audio_formats s' is [] then -1 else 0)
    ∧ (∀ best rest, video_formats s' = best :: rest →
         Forall (λ e, VideoInfoThread.height_key e ≤ VideoInfoThread.height_key best) rest)
    ∧ (∀ best rest, audio_formats s' = best :: rest →
         Forall (λ e, (VideoInfoThread.abr_key e ≤ VideoInfoThread.abr_key best)%Qc) rest)
    ∧ fetch_btn s' = true ∧ download_btn s' = true
    ∧ running (video_thread s') = false
    ∧ log_text s' = log_text Example.resolving ++ ["Title: clip"; "Duration: 2:05"].
Proof.
  apply (probe_result_replaces_formats "/home/user/Downloads"
           [edit_url "https://www.youtube.com/watch?v=dQw4w9WgXcQ"; click_fetch]
           (Example.probe "137" "140") "2:05");
    reflexivity.
Defined.

(** X9. When a probe fails, its message is shown once and logged, the
    fetch button is enabled again, and nothing is stored: the formats and
    lists stay empty, so every download request is rejected until a probe
    succeeds. *)
Theorem probe_failure_leaves_nothing (downloads : string) (evs : list event)
    (o : VideoInfoThread.extract_outcome) (msg : string) :
  running (video_thread (run_events evs (init downloads))) = true →
  VideoInfoThread.run o = VideoInfoThread.error msg →
  ∃ s',
    dispatch (video_info_signal o) (run_events evs (init downloads))
      = (s', [critical "Error" msg])
    ∧ video_formats s' = [] ∧ audio_formats s' = []
    ∧ video_list s' = clear ∧ audio_list s' = clear
    ∧ fetch_btn s' = true
    ∧ running (video_thread s') = false
    ∧ log_text s' = log_text (run_events evs (init downloads)) ++ ["ERROR: " +:+ msg]
    ∧ ∀ path_exists, ∃ m, start_download path_exists s' = (s', [warning "Error" m]).
Proof.
  intros Hr Ho.
  pose proof (run_events_consistent evs _ (init_consistent downloads))
    as (Hv & Ha & _ & _ & _ & Hres & _).
  destruct (Hres Hr) as (_ & Hvl & Hal & _).
  rewrite Hvl in Hv. rewrite Hal in Ha. simpl in Hv, Ha.
  symmetry in Hv, Ha. apply fmap_nil_inv in Hv, Ha.
  simpl. rewrite Hr, Ho. simpl. eexists. split; [done|]. simpl.
  rewrite Hv, Ha, Hvl, Hal.
  repeat split; try done.
  - by destruct (video_thread _).
  - intros path_exists. apply start_download_rejected; simpl; by rewrite ?Hvl, ?Hal.
Qed.

(** The same at sample windows and inputs. *)
Lemma probe_failure_leaves_nothing_witness :
  ∃ s',
    dispatch (video_info_signal (VideoInfoThread.Raised "Video unavailable"))
      Example.resolving
      = (s', [critical "Error" "Error fetching video info: Video unavailable"])
    ∧ video_formats s' = [] ∧ audio_formats s' = []
    ∧ video_list s' = clear ∧ audio_list s' = clear
    ∧ fetch_btn s' = true
    ∧ running (video_thread s') = false
    ∧ log_text s'
      = log_text Example.resolving
        ++ ["ERROR: " +:+ "Error fetching video info: Video unavailable"]
    ∧ ∀ path_exists, ∃ m, start_download path_exists s' = (s', [warning "Error" m]).
Proof.
  apply (probe_failure_leaves_nothing "/home/user/Downloads"
           [edit_url "https://www.youtube.com/watch?v=dQw4w9WgXcQ"; click_fetch]
           (VideoInfoThread.Raised "Video unavailable")
           "Error fetching video info: Video unavailable");
    reflexivity.
Defined.

Lemma dispatch_log ev s : log_text s `prefix_of` log_text (dispatch ev s).1.
Proof.
  destruct ev as [text|video|row|row|folder| |path_exists|o|d|o]; simpl;
    try done.
  - unfold browse_folder. by destruct (String.eqb folder "").
  - destruct (fetch_btn s); [|done]. unfold fetch_video_info.
    destruct (String.eqb _ _); [done|]. by destruct (negb (validate_url _)).
  - destruct (download_btn s); [|done].
    destruct (start_download_cases path_exists s)
      as [[msg ->] | [-> | (_ & url & save_path & opts & ->)]]; done.
  - destruct (running (video_thread s)); [|done].
    destruct (VideoInfoThread.run o); simpl; by apply prefix_app_r.
  - destruct (running (download_thread s)); [|done].
    unfold DownloadThread.progress_hook.
    destruct (String.eqb _ "downloading"); [|destruct (String.eqb _ "finished")];
      simpl; try done; by apply prefix_app_r.
  - destruct (download_thread s) as [[th r]|]; [|done]. simpl.
    destruct r; [|done]. destruct o; simpl; by apply prefix_app_r.
Qed.

(** X10. No event removes or changes a logged line: the log before a
    sequence of events is a prefix of the log after it. *)
Theorem log_only_grows (evs : list event) (s : t) :
  log_text s `prefix_of` log_text (run_events evs s).
Proof.
  revert s. induction evs as [|ev evs IH]; intros s; [done|].
  simpl. etrans; [apply dispatch_log|apply IH].
Qed.

(** X11. In every window the program can be in, the status line reads
    ["Fetching video information..."] (and the progress line
    ["Working..."]) while a probe runs, and ["Downloading..."] while a
    download runs. *)
Theorem status_shows_running_operation (downloads : string) (evs : list event) :
  (running (video_thread (run_events evs (init downloads))) = true →
     status_label (run_events evs (init downloads)) = "Fetching video information..."
     ∧ progress_label (run_events evs (init downloads)) = "Working...")
  ∧ (running (download_thread (run_events evs (init downloads))) = true →
       status_label (run_events evs (init downloads)) = "Downloading...").
Proof.
  pose proof (run_events_tracking evs _ (init_consistent downloads)
                (init_tracking downloads)) as (_ & Hv & Hd).
  done.
Qed.

(** The same at sample windows and inputs. *)
Lemma status_shows_running_operation_witness :
  (status_label Example.resolving = "Fetching video information..."
   ∧ progress_label Example.resolving = "Working...")
  ∧ status_label
      (run_events [download_hook Example.hook_downloading; edit_url "x"]
         Example.downloading) = "Downloading...".
Proof.
  split.
  - apply (proj1 (status_shows_running_operation "/home/user/Downloads"
             [edit_url "https://www.youtube.com/watch?v=dQw4w9WgXcQ"; click_fetch])).
    reflexivity.
  - apply (proj2 (status_shows_running_operation "/home/user/Downloads"
             [edit_url "https://www.youtube.com/watch?v=dQw4w9WgXcQ"; click_fetch;
              video_info_signal
                (VideoInfoThread.Returned (Some (Example.probe "137" "140")));
              click_download Example.any_path;
              download_hook Example.hook_downloading; edit_url "x"])).
    reflexivity.
Defined.

(** X12. When a download that was accepted in a window the program can
    be in ends normally, whatever happened in between, the success message
    is shown once and the window holds the formats it held before: the
    stored formats and list rows are the same, no thread runs and both
    buttons are enabled again. *)
Theorem completed_download_keeps_formats (s0 s1 : t) (path_exists : string → bool)
    (evs : list event) :
  reachable s0 →
  dispatch (click_download path_exists) s0 = (s1, [start_download_thread]) →
  Forall not_download_end evs →
  ∃ s3,
    dispatch (download_end DownloadThread.Returned) (run_events evs s1)
      = (s3, [information "Success" "Download completed successfully!"])
    ∧ video_formats s3 = video_formats s0
    ∧ audio_formats s3 = audio_formats s0
    ∧ items (video_list s3) = items (video_list s0)
    ∧ items (audio_list s3) = items (audio_list s0)
    ∧ running (download_thread s3) = false
    ∧ running (video_thread s3) = false
    ∧ fetch_btn s3 = true ∧ download_btn s3 = true
    ∧ status_label s3 = "Download completed".
Proof.
  intros Hreach Hclick Hevs.
  pose proof (reachable_consistent s0 Hreach) as Hs0.
  pose proof (dispatch_consistent (click_download path_exists) s0 Hs0) as Hs1.
  rewrite Hclick in Hs1. simpl in Hs1.
  destruct (click_download_accepted _ _ _ Hclick) as (Hr1 & Hv1 & Ha1).
  destruct (run_events_during_download evs s1 Hs1 Hr1 Hevs)
    as (Hs2 & Hr2 & Hv2 & Ha2).
  pose proof (dispatch_consistent (download_end DownloadThread.Returned) _ Hs2)
    as Hs3.
  destruct Hs2 as (_ & _ & _ & _ & _ & Hres2 & _).
  assert (running (video_thread (run_events evs s1)) = false) as Hnv.
  { destruct (running (video_thread _)); [|done].
    destruct (Hres2 eq_refl) as (_ & _ & _ & ?). congruence. }
  revert Hs3. simpl.
  destruct (download_thread (run_events evs s1)) as [[th r]|]; [|done].
  simpl in Hr2. subst r. simpl.
  intros (Hi3 & Hj3 & _). simpl in Hi3, Hj3.
  destruct Hs0 as (Hi0 & Hj0 & _).
  eexists. split; [done|]. simpl.
  rewrite Hi3, Hj3, Hi0, Hj0, Hv2, Ha2, Hv1, Ha1, Hnv. done.
Qed.

(** The same at sample windows and inputs. *)
Lemma completed_download_keeps_formats_witness :
  ∃ s3,
    dispatch (download_end DownloadThread.Returned)
      (run_events [download_hook Example.hook_downloading;
                   download_hook Example.hook_finished] Example.downloading_audio)
      = (s3, [information "Success" "Download completed successfully!"])
    ∧ video_formats s3
      = video_formats (run_events [click_radio false] Example.resolved)
    ∧ audio_formats s3
      = audio_formats (run_events [click_radio false] Example.resolved)
    ∧ items (video_list s3)
      = items (video_list (run_events [click_radio false] Example.resolved))
    ∧ items (audio_list s3)
      = items (audio_list (run_events [click_radio false] Example.resolved))
    ∧ running (download_thread s3) = false
    ∧ running (video_thread s3) = false
    ∧ fetch_btn s3 = true ∧ download_btn s3 = true
    ∧ status_label s3 = "Download completed".
Proof.
  apply (completed_download_keeps_formats
           (run_events [click_radio false] Example.resolved)
           Example.downloading_audio Example.any_path
           [download_hook Example.hook_downloading;
            download_hook Example.hook_finished]).
  - exists "/home/user/Downloads",
      [edit_url "https://www.youtube.com/watch?v=dQw4w9WgXcQ"; click_fetch;
       video_info_signal
         (VideoInfoThread.Returned (Some (Example.probe "137" "140")));
       click_radio false].
    reflexivity.
  - vm_compute. reflexivity.
  - repeat constructor.
Defined.
(** X19. While a probe or a download runs, the fetch button is
    disabled: a click on it reaches no slot and changes nothing. *)
Theorem fetch_request_while_busy (downloads : string) (evs : list event) :
  running (video_thread (run_events evs (init downloads)))
  || running (download_thread (run_events evs (init downloads))) = true →
  fetch_btn (run_events evs (init downloads)) = false
  ∧ dispatch click_fetch (run_events evs (init downloads))
    = (run_events evs (init downloads), []).
Proof.
  intros Hr.
  pose proof (run_events_tracking evs _ (init_consistent downloads)
                (init_tracking downloads)) as (Hf & _).
  rewrite Hr in Hf. simpl in Hf. split; [done|]. simpl. by rewrite Hf.
Qed.

(** The same at sample windows and inputs. *)
Lemma fetch_request_while_busy_witness :
  (fetch_btn Example.resolving = false
   ∧ dispatch click_fetch Example.resolving = (Example.resolving, []))
  ∧ (fetch_btn Example.downloading = false
     ∧ dispatch click_fetch Example.downloading = (Example.downloading, [])).
Proof.
  split.
  - apply (fetch_request_while_busy "/home/user/Downloads"
             [edit_url "https://www.youtube.com/watch?v=dQw4w9WgXcQ"; click_fetch]).
    reflexivity.
  - apply (fetch_request_while_busy "/home/user/Downloads"
             [edit_url "https://www.youtube.com/watch?v=dQw4w9WgXcQ"; click_fetch;
              video_info_signal
                (VideoInfoThread.Returned (Some (Example.probe "137" "140")));
              click_download Example.any_path]).
    reflexivity.
Defined.

(** X20. No event makes the window show more than one dialog or start
    more than one thread. *)
Theorem one_effect_per_event (ev : event) (s : t) :
  (length (dispatch ev s).2 ≤ 1)%nat.
Proof.
  destruct ev as [text|video|row|row|folder| |path_exists|o|d|o]; simpl;
    try lia.
  - destruct (fetch_btn s); [|simpl; lia]. unfold fetch_video_info.
    destruct (String.eqb _ _); [simpl; lia|].
    destruct (negb (validate_url _)); simpl; lia.
  - destruct (download_btn s); [|simpl; lia].
    destruct (start_download_cases path_exists s)
      as [[msg ->] | [-> | (_ & url & save_path & opts & ->)]]; simpl; lia.
  - destruct (running (video_thread s)); [|simpl; lia].
    destruct (VideoInfoThread.run o); simpl; lia.
  - destruct (running (download_thread s)); [|simpl; lia].
    unfold DownloadThread.progress_hook.
    destruct (String.eqb _ "downloading"); [|destruct (String.eqb _ "finished")];
      simpl; lia.
  - destruct (download_thread s) as [[th r]|]; [|simpl; lia]. simpl.
    destruct r; [|simpl; lia]. destruct o; simpl; lia.
Qed.
End window_invariants.

(** ** The resolver: what the two lists never hold *)

Section resolver_lists.
Import VideoInfoThread.

(** X13. No descriptor, whatever its fields, is carried by an entry of
    both lists. *)
Theorem no_descriptor_in_both_lists (info : RawInfo) (label : string)
    (d : RawFormat) :
  carrying d (video_formats (process info label)) = 0%nat
  ∨ carrying d (audio_formats (process info label)) = 0%nat.
Proof.
  rewrite carrying_video, carrying_audio.
  destruct (usable_video d) eqn:Hu; [|by left].
  right. by rewrite (usable_exclusive d Hu).
Qed.



End resolver_lists.

(** ** The download thread and its options *)

Section download_options.
Import YouTubeDownloader.

(** X16. [progress_hook] emits at most one signal for a callback, never
    a terminal one, and none at all for a status other than
    ["downloading"] and ["finished"]. *)
Theorem progress_hook_other_status (d : DownloadThread.progress_dict) :
  (length (DownloadThread.progress_hook d) ≤ 1)%nat
  ∧ DownloadThread.successes (DownloadThread.progress_hook d) = []
  ∧ DownloadThread.failures (DownloadThread.progress_hook d) = []
  ∧ (DownloadThread.status d ≠ "downloading" →
     DownloadThread.status d ≠ "finished" →
     DownloadThread.progress_hook d = []).
Proof.
  split; [|split; [apply progress_hook_progress|split; [apply progress_hook_progress|]]].
  - unfold DownloadThread.progress_hook.
    destruct (String.eqb _ "downloading"); [simpl; lia|].
    destruct (String.eqb _ "finished"); simpl; lia.
  - intros Hd Hf. unfold DownloadThread.progress_hook.
    apply String.eqb_neq in Hd, Hf. by rewrite Hd, Hf.
Qed.

(** The same at sample windows and inputs. *)
Lemma progress_hook_other_status_witness :
  DownloadThread.progress_hook
    {| DownloadThread.status := "error"; DownloadThread._percent_str := None;
       DownloadThread._speed_str := None; DownloadThread.filename := "/d/clip.mp4" |}
  = [].
Proof.
  apply (proj2 (proj2 (proj2 (progress_hook_other_status
    {| DownloadThread.status := "error"; DownloadThread._percent_str := None;
       DownloadThread._speed_str := None;
       DownloadThread.filename := "/d/clip.mp4" |}))));
    discriminate.
Defined.

Lemma basename_no_slash s : Py.has_slash s = false → Py.basename s = s.
Proof.
  destruct s as [|c s]; [done|]. simpl. intros Hs. by rewrite Hs.
Qed.

Lemma basename_after_slash a b :
  Py.basename (a +:+ String "/" b) = Py.basename b.
Proof.
  induction a as [|c a IH]; [done|].
  rewrite string_app_cons. simpl.
  assert (Py.has_slash (a +:+ String "/" b) = true) as ->.
  { clear IH. induction a as [|c' a IH]; [done|].
    rewrite string_app_cons. simpl. by rewrite IH, orb_true_r. }
  by rewrite orb_true_r.
Qed.

Lemma ends_with_slash_inv a :
  Py.ends_with_slash a = true → ∃ a', a = a' +:+ "/".
Proof.
  induction a as [|c a IH]; [done|]. simpl.
  destruct a as [|c' a].
  - intros ->%Ascii.eqb_eq. by exists "".
  - intros [a' ->]%IH. by exists (String c a').
Qed.

Lemma basename_path_join dir name :
  Py.has_slash name = false → Py.basename (Py.path_join dir name) = name.
Proof.
  intros Hn. unfold Py.path_join.
  assert (Py.strip_prefix "/" name = None) as ->.
  { destruct name as [|c name]; [done|].
    cbn [Py.strip_prefix Py.has_slash] in *.
    apply orb_false_iff in Hn as [Hc _].
    rewrite Ascii.eqb_sym. by rewrite Hc. }
  destruct dir as [|c dir]; [by apply basename_no_slash|].
  destruct (Py.ends_with_slash (String c dir)) eqn:He.
  - apply ends_with_slash_inv in He as [a' ->].
    rewrite string_app_assoc.
    change ("/" +:+ name) with (String "/" name).
    rewrite basename_after_slash. by apply basename_no_slash.
  - change ("/" +:+ name) with (String "/" name).
    rewrite basename_after_slash. by apply basename_no_slash.
Qed.

(** X17. For a finished file that lies directly in a directory (its
    path is the directory joined with a name without ["/"]), the progress
    message shows the name alone. *)
Theorem finished_file_shown_by_name (d : DownloadThread.progress_dict)
    (dir name : string) :
  DownloadThread.status d = "finished" →
  DownloadThread.filename d = Py.path_join dir name →
  Py.has_slash name = false →
  DownloadThread.progress_hook d
  = [DownloadThread.progress ("Download finished: " +:+ name)].
Proof.
  intros Hs Hf Hn. unfold DownloadThread.progress_hook.
  by rewrite Hs, Hf, basename_path_join.
Qed.

(** The same at sample windows and inputs. *)
Lemma finished_file_shown_by_name_witness :
  DownloadThread.progress_hook Example.hook_finished
  = [DownloadThread.progress "Download finished: clip.f137.mp4"].
Proof.
  apply (finished_file_shown_by_name Example.hook_finished
           "/home/user/Downloads" "clip.f137.mp4"); reflexivity.
Defined.

(** X18. An accepted [start_download] hands the thread the stripped URL
    and the stripped save location, which exists; the output template is
    [%(title)s.%(ext)s] directly inside that location; every base option
    keeps its value; and the stored formats, the lists and the inputs are
    untouched while both buttons are disabled. *)
Theorem start_download_thread_setup (path_exists : string → bool) (s s' : t) :
  start_download path_exists s = (s', [start_download_thread]) →
  ∃ q, download_thread s' = Some q
    ∧ DownloadThread.url (thread q) = Py.strip (url_entry s)
    ∧ DownloadThread.save_path (thread q) = Py.strip (save_entry s)
    ∧ path_exists (Py.strip (save_entry s)) = true
    ∧ (∃ template,
         DownloadThread.ydl_opts (thread q) !! "outtmpl" = Some (VStr template)
         ∧ template = Py.path_join (Py.strip (save_entry s)) "%(title)s.%(ext)s"
         ∧ Py.basename template = "%(title)s.%(ext)s")
    ∧ (∀ k v, ydl_opts_base !! k = Some v →
         DownloadThread.ydl_opts (thread q) !! k = Some v)
    ∧ video_formats s' = video_formats s ∧ audio_formats s' = audio_formats s
    ∧ video_list s' = video_list s ∧ audio_list s' = audio_list s
    ∧ url_entry s' = url_entry s ∧ save_entry s' = save_entry s
    ∧ fetch_btn s' = false ∧ download_btn s' = false.
Proof.
  unfold start_download, launch. intros Hsd.
  destruct (String.eqb _ ""); [done|].
  destruct (String.eqb (Py.strip (save_entry s)) ""); [done|].
  destruct (path_exists _) eqn:Hp; [|done]. simpl in Hsd.
  repeat case_match; simplify_eq/=.
  - eexists. split; [done|]. simpl. repeat split; try done.
    + eexists. split; [by rewrite 2!lookup_insert_ne, lookup_insert_eq by done|].
      split; [done|]. by apply basename_path_join.
    + intros k v Hk.
      rewrite !lookup_insert_ne; [done|intros <-; by vm_compute in Hk..].
  - eexists. split; [done|]. simpl. repeat split; try done.
    + eexists. split; [by rewrite 2!lookup_insert_ne, lookup_insert_eq by done|].
      split; [done|]. by apply basename_path_join.
    + intros k v Hk.
      rewrite !lookup_insert_ne; [done|intros <-; by vm_compute in Hk..].
Qed.

(** The same at sample windows and inputs. *)
Lemma start_download_thread_setup_witness :
  ∃ q, download_thread Example.downloading = Some q
    ∧ DownloadThread.url (thread q) = "https://www.youtube.com/watch?v=dQw4w9WgXcQ"
    ∧ DownloadThread.save_path (thread q) = "/home/user/Downloads"
    ∧ DownloadThread.ydl_opts (thread q) !! "quiet" = Some (VBool true).
Proof.
  destruct (start_download_thread_setup Example.any_path Example.resolved
              Example.downloading)
    as (q & Hq & Hurl & Hpath & _ & _ & Hbase & _).
  - vm_compute. reflexivity.
  - exists q. split; [exact Hq|]. split; [exact Hurl|]. split; [exact Hpath|].
    apply Hbase. vm_compute. reflexivity.
Defined.
End download_options.
